(** * cnpv.py: census archive pipeline, shallow embedding.

    The Python module [src/code/cnpv.py] reads nested zip archives of Stata
    files into pandas tables, cleans them, concatenates them per record type
    and substitutes value labels taken from a CSPro dictionary.

    Conventions of the embedding:
    - a Python [str] is a [string] (a list of 8-bit characters); [str.lower]
      and [str.upper] act on the letters a-z / A-Z;
    - a raised exception is [Err e]; a normal return is [OK v];
    - a Python [dict] with string keys is an association list in insertion
      order ([dict_get], [dict_set]);
    - the zip reader, the Stata decoder and the CSPro parser are external
      to the module and are taken as parameters. *)

From Stdlib Require Import List String Ascii ZArith QArith Lia Bool Permutation.
Import ListNotations.
Local Open Scope string_scope.
Local Open Scope list_scope.

(** ** Exceptions and results *)

Inductive exn : Type :=
| KeyError (key : string)
| IndexError
| TypeError
| ValueError
| BadZipFile
| IsADirectoryError
| UnicodeDecodeError.

Inductive result (A : Type) : Type :=
| OK (v : A)
| Err (e : exn).

Arguments OK {A} v.
Arguments Err {A} e.

Definition bind {A B : Type} (r : result A) (k : A -> result B) : result B :=
match r with
| OK v => k v
| Err e => Err e
end.

Declare Scope result_scope.
Delimit Scope result_scope with result.
Notation "x <- c ;; k" := (bind c (fun x => k))
  (at level 61, c at next level, right associativity) : result_scope.
Local Open Scope result_scope.


Fixpoint mapM {A B : Type} (f : A -> result B) (l : list A) : result (list B) :=
match l with
| [] => OK []
| x :: xs => y <- f x ;; ys <- mapM f xs ;; OK (y :: ys)
end.

(** ** Python dictionaries with string keys *)

Definition dict (V : Type) : Type := list (string * V).

Fixpoint dict_get {V : Type} (k : string) (d : dict V) : option V :=
match d with
| [] => None
| (k', v) :: d' => if String.eqb k k' then Some v else dict_get k d'
end.

(** [d[k]] *)
Definition getitem {V : Type} (d : dict V) (k : string) : result V :=
match dict_get k d with
| Some v => OK v
| None => Err (KeyError k)
end.

(** [d[k] = v]: an existing key keeps its position, a new key goes last. *)
Fixpoint dict_set {V : Type} (k : string) (v : V) (d : dict V) : dict V :=
match d with
| [] => [(k, v)]
| (k', v') :: d' =>
    if String.eqb k k' then (k', v) :: d' else (k', v') :: dict_set k v d'
end.

Definition keys {V : Type} (d : dict V) : list string := map fst d.

(** ** Strings *)

(** [s.split(sep)] for a one-character separator. *)
Fixpoint split (sep : ascii) (s : string) : list string :=
match s with
| EmptyString => [EmptyString]
| String c s' =>
    if Ascii.eqb c sep then EmptyString :: split sep s'
    else match split sep s' with
         | [] => [String c EmptyString]
         | seg :: rest => String c seg :: rest
         end
end.

(** [sep.join(l)] *)
Fixpoint join (sep : ascii) (l : list string) : string :=
match l with
| [] => EmptyString
| [s] => s
| s :: l' => s ++ String sep (join sep l')
end.

Fixpoint contains_char (c : ascii) (s : string) : bool :=
match s with
| EmptyString => false
| String c' s' => Ascii.eqb c' c || contains_char c s'
end.

Definition is_upper_letter (c : ascii) : bool :=
(65 <=? nat_of_ascii c)%nat && (nat_of_ascii c <=? 90)%nat.

Definition is_lower_letter (c : ascii) : bool :=
(97 <=? nat_of_ascii c)%nat && (nat_of_ascii c <=? 122)%nat.

Definition is_digit (c : ascii) : bool :=
(48 <=? nat_of_ascii c)%nat && (nat_of_ascii c <=? 57)%nat.

Definition lower_char (c : ascii) : ascii :=
if is_upper_letter c then ascii_of_nat (nat_of_ascii c + 32) else c.

Definition upper_char (c : ascii) : ascii :=
if is_lower_letter c then ascii_of_nat (nat_of_ascii c - 32) else c.

Fixpoint string_map (f : ascii -> ascii) (s : string) : string :=
match s with
| EmptyString => EmptyString
| String c s' => String (f c) (string_map f s')
end.

(** [s.lower()] and [s.upper()] *)
Definition lower : string -> string := string_map lower_char.
Definition upper : string -> string := string_map upper_char.

(** [s.endswith(suffix)] *)
Definition endswith (s suffix : string) : bool :=
let n := String.length s in
let m := String.length suffix in
(m <=? n)%nat && String.eqb (substring (n - m) m s) suffix.

(** ** Record Type Mapper *)

Definition viviendas : string := "viviendas".
Definition hogares : string := "hogares".
Definition fallecidos : string := "fallecidos".
Definition personas : string := "personas".
Definition marco_georreferenciacion : string := "marco_georreferenciacion".

Definition MapRecordName (record_name : string) : result string :=
let name_dict :=
  [ (viviendas, "REGVIV");
    (hogares, "REGHOG");
    (fallecidos, "REGFALL");
    (personas, "REGPER") ] in
getitem name_dict record_name.

(** [l[i]] on a list: [IndexError] out of range. *)
Definition list_index {A : Type} (l : list A) (i : nat) : result A :=
match nth_error l i with
| Some x => OK x
| None => Err IndexError
end.

Definition MapDataframeName (filename : string) : result string :=
key_string <- list_index (split "_" filename) 1 ;;
let name_dict :=
  [ ("1VIV", viviendas);
    ("2HOG", hogares);
    ("3FALL", fallecidos);
    ("5PER", personas);
    ("MGN", marco_georreferenciacion) ] in
getitem name_dict key_string.

(** The five codes of the file naming convention. *)
Definition dataframe_codes : list string := ["1VIV"; "2HOG"; "3FALL"; "5PER"; "MGN"].

(** ** pandas tables

    A column is typed by its element type, as in pandas: numpy [float64] and
    [float32] arrays (a missing value is NaN), numpy integer arrays (no
    missing value), the nullable [Int64] extension array (a missing value is
    [pd.NA]) and [object] arrays of Python values. A finite float is modelled
    by the rational it denotes. *)

Inductive float64 : Type :=
| FNaN
| FInf (negative : bool)
| FRat (q : Q).

Inductive pyobj : Type :=
| PyFloat (f : float64)
| PyInt (z : Z)
| PyStr (s : string)
| PyNA.

Inductive column_data : Type :=
| Float64Data (l : list float64)
| Float32Data (l : list float64)
| IntData (l : list Z)
| Int64Data (l : list (option Z))
| ObjectData (l : list pyobj).

Inductive dtype : Type := Float64 | Float32 | NumpyInt | Int64 | Object.

Record column : Type := Column { col_name : string; col_data : column_data }.

(** [nrows] is the length of the row index; [pd.DataFrame()] has no row and
    no column. *)
Record DataFrame : Type := Frame { nrows : nat; columns : list column }.

Definition empty_DataFrame : DataFrame := Frame 0 [].

Definition dtype_of (d : column_data) : dtype :=
match d with
| Float64Data _ => Float64
| Float32Data _ => Float32
| IntData _ => NumpyInt
| Int64Data _ => Int64
| ObjectData _ => Object
end.

Definition col_dtype (c : column) : dtype := dtype_of (col_data c).


Definition option_to_obj (o : option Z) : pyobj :=
match o with Some z => PyInt z | None => PyNA end.

(** The values of a column as Python objects ([Series.tolist()]). *)
Definition to_objects (d : column_data) : list pyobj :=
match d with
| Float64Data l => map PyFloat l
| Float32Data l => map PyFloat l
| IntData l => map PyInt l
| Int64Data l => map option_to_obj l
| ObjectData l => l
end.

Definition data_length (d : column_data) : nat := List.length (to_objects d).

(** [pd.isna] on one value. *)
Definition isna (x : pyobj) : bool :=
match x with
| PyFloat FNaN => true
| PyNA => true
| _ => false
end.

Definition column_names (df : DataFrame) : list string := map col_name (columns df).


(** *** [astype("Int64")]

    pandas casts a float to the nullable integer type only when the cast is
    exact ("cannot safely cast non-equivalent float64 to int64" otherwise);
    NaN becomes the missing value of the integer type. *)

Definition int64_min : Z := - 2 ^ 63.
Definition int64_max : Z := 2 ^ 63 - 1.

Definition in_int64 (z : Z) : bool := (int64_min <=? z)%Z && (z <=? int64_max)%Z.

Definition float_to_Int64 (f : float64) : result (option Z) :=
match f with
| FNaN => OK None
| FInf _ => Err TypeError
| FRat q =>
    let n := Qnum q in
    let d := Zpos (Qden q) in
    if ((n mod d =? 0)%Z && in_int64 (n / d))%bool then OK (Some (n / d)%Z)
    else Err TypeError
end.

(** The Python float of an integer. *)
Definition float_of_Z (z : Z) : float64 := FRat (inject_Z z).

(** [df.select_dtypes(include=["float64"])]: the float64 columns, in order,
    each with its name and values. *)
Definition select_float64 (df : DataFrame) : list (string * list float64) :=
flat_map (fun c =>
  match col_data c with
  | Float64Data l => [(col_name c, l)]
  | _ => []
  end) (columns df).

(** [.astype("Int64")] on the selected columns: a table of [Int64] columns. *)
Definition astype_Int64 (sel : list (string * list float64))
  : result (dict (list (option Z))) :=
mapM (fun p => l <- mapM float_to_Int64 (snd p) ;; OK (fst p, l)) sel.

(** *** [df.update(other)]

    "Modify in place using non-NA values from another DataFrame": columns are
    aligned on their labels, and a value of [df] is overwritten where the
    other table has a non-missing value. A column for which the other table
    has only missing values (or no column at all) is skipped.

    How the merged values are stored depends on the pandas release:
    - [ReplaceColumn] (releases that assign [self[col] = where(mask, this,
      that)]): the column is replaced by the merged array, which for an
      [Int64] source is an object array;
    - [SetInPlace] (releases that assign [self.loc[:, col] = ...]): the
      values are written into the existing column, which keeps its element
      type.
    The embedding covers both. *)

Inductive update_impl : Type := ReplaceColumn | SetInPlace.

(** [where(isna(that), this, that)], the other column being re-indexed on
    the rows of [this]. *)
Fixpoint merge_values (this : list pyobj) (that : list (option Z)) : list pyobj :=
match this with
| [] => []
| x :: this' =>
    match that with
    | Some z :: that' => PyInt z :: merge_values this' that'
    | None :: that' => x :: merge_values this' that'
    | [] => x :: merge_values this' []
    end
end.

Definition obj_to_float (x : pyobj) : float64 :=
match x with
| PyFloat f => f
| PyInt z => float_of_Z z
| _ => FNaN
end.

Definition obj_to_Z (x : pyobj) : Z :=
match x with
| PyInt z => z
| _ => 0%Z
end.

Definition obj_to_option (x : pyobj) : option Z :=
match x with
| PyInt z => Some z
| _ => None
end.

(** Writing merged values (the column's own values and integers) back into
    a column of the same element type. *)
Definition set_values (d : column_data) (merged : list pyobj) : column_data :=
match d with
| Float64Data _ => Float64Data (map obj_to_float merged)
| Float32Data _ => Float32Data (map obj_to_float merged)
| IntData _ => IntData (map obj_to_Z merged)
| Int64Data _ => Int64Data (map obj_to_option merged)
| ObjectData _ => ObjectData merged
end.

Definition all_missing (that : list (option Z)) : bool :=
forallb (fun o => match o with None => true | Some _ => false end) that.

Definition update_column (impl : update_impl) (other : dict (list (option Z)))
  (c : column) : column :=
match dict_get (col_name c) other with
| None => c
| Some that =>
    if all_missing that then c
    else
      let merged := merge_values (to_objects (col_data c)) that in
      match impl with
      | ReplaceColumn => Column (col_name c) (ObjectData merged)
      | SetInPlace => Column (col_name c) (set_values (col_data c) merged)
      end
end.

Definition update (impl : update_impl) (df : DataFrame)
  (other : dict (list (option Z))) : DataFrame :=
Frame (nrows df) (map (update_column impl other) (columns df)).

(** [df.columns = map(str.upper, df.columns)] *)
Definition rename_upper (df : DataFrame) : DataFrame :=
Frame (nrows df)
  (map (fun c => Column (upper (col_name c)) (col_data c)) (columns df)).

(** ** Table Cleaner *)

Definition CleanDataframe (impl : update_impl) (df : DataFrame) : result DataFrame :=
clean_df <- astype_Int64 (select_float64 df) ;;
let df := update impl df clean_df in
let df := rename_upper df in
OK df.









(** Two example tables. *)
Definition example_table : DataFrame :=
Frame 2 [ Column "u_dpto" (IntData [5%Z; 5%Z]);
          Column "va1_estrato" (Float64Data [FRat (4 # 2); FNaN]);
          Column "nombre" (ObjectData [PyStr "a"; PyStr "b"]) ].

Definition fractional_table : DataFrame :=
Frame 1 [ Column "peso" (Float64Data [FRat (3 # 2)]) ].

(** ** [pd.concat]

    [pd.concat([a, b])] stacks the rows of [a] over the rows of [b]. A table
    with no row and no column is dropped from the list first. The columns of
    the result are those of [a] followed by the columns only [b] has; a table
    without a column contributes NaN for its rows. Where the element types
    differ, or NaN has to be stored, the values are cast to a common type. *)

Definition is_empty_shape (df : DataFrame) : bool :=
(nrows df + List.length (columns df) =? 0)%nat.

Fixpoint find_column (name : string) (cols : list column) : option column_data :=
match cols with
| [] => None
| c :: cols' =>
    if String.eqb name (col_name c) then Some (col_data c) else find_column name cols'
end.

Definition dtype_eqb (a b : dtype) : bool :=
match a, b with
| Float64, Float64 | Float32, Float32 | NumpyInt, NumpyInt
| Int64, Int64 | Object, Object => true
| _, _ => false
end.

Definition dtype_join (a b : dtype) : dtype :=
if dtype_eqb a b then a
else match a, b with
     | Object, _ | _, Object => Object
     | Int64, NumpyInt | NumpyInt, Int64 => Int64
     | _, _ => Float64
     end.

(** The element type able to hold NaN. *)
Definition dtype_with_nan (a : dtype) : dtype :=
match a with
| NumpyInt => Float64
| _ => a
end.

Definition cast_to (d : dtype) (objs : list pyobj) : column_data :=
match d with
| Float64 => Float64Data (map obj_to_float objs)
| Float32 => Float32Data (map obj_to_float objs)
| NumpyInt => IntData (map obj_to_Z objs)
| Int64 => Int64Data (map obj_to_option objs)
| Object => ObjectData objs
end.

Definition nan_values (n : nat) : list pyobj := repeat (PyFloat FNaN) n.

Definition concat_data (na nb : nat) (a b : option column_data) : column_data :=
match a, b with
| Some da, Some db =>
    cast_to (dtype_join (dtype_of da) (dtype_of db)) (to_objects da ++ to_objects db)
| Some da, None =>
    cast_to (dtype_with_nan (dtype_of da)) (to_objects da ++ nan_values nb)
| None, Some db =>
    cast_to (dtype_with_nan (dtype_of db)) (nan_values na ++ to_objects db)
| None, None => ObjectData (nan_values na ++ nan_values nb)
end.

Definition mem_string (x : string) (l : list string) : bool :=
existsb (String.eqb x) l.

Definition union_names (a b : list string) : list string :=
a ++ filter (fun n => negb (mem_string n a)) b.

Definition concat (a b : DataFrame) : DataFrame :=
if is_empty_shape a then b
else if is_empty_shape b then a
else
  Frame (nrows a + nrows b)
    (map (fun n => Column n (concat_data (nrows a) (nrows b)
                               (find_column n (columns a))
                               (find_column n (columns b))))
         (union_names (column_names a) (column_names b))).




(** ** [DataFrame.replace] with a nested dictionary

    [{column: {value: label}}]: in each named column, a value equal to a key
    is replaced by that key's label (a missing key matches the missing
    values); the keys are matched against the original values. *)

Definition float_eqb (a b : float64) : bool :=
match a, b with
| FRat p, FRat q => Qeq_bool p q
| FInf s, FInf t => Bool.eqb s t
| _, _ => false
end.

(** Python [==] on values. *)
Definition py_eq (a b : pyobj) : bool :=
match a, b with
| PyInt x, PyInt y => (x =? y)%Z
| PyInt x, PyFloat f | PyFloat f, PyInt x => float_eqb (float_of_Z x) f
| PyFloat f, PyFloat g => float_eqb f g
| PyStr x, PyStr y => String.eqb x y
| _, _ => false
end.

Definition matches (key x : pyobj) : bool :=
if isna key then isna x else py_eq key x.

Definition labels : Type := list (pyobj * string).
Definition value_labels : Type := dict labels.

(** The label of a value: the masks of the keys are applied in order, so
    the last matching key wins. *)
Fixpoint find_label (ls : labels) (x : pyobj) : option string :=
match ls with
| [] => None
| (k, l) :: ls' =>
    match find_label ls' x with
    | Some l' => Some l'
    | None => if matches k x then Some l else None
    end
end.

Definition substitute (ls : labels) (x : pyobj) : pyobj :=
match find_label ls x with
| Some l => PyStr l
| None => x
end.

Definition has_label (ls : labels) (x : pyobj) : bool :=
match find_label ls x with Some _ => true | None => false end.

Definition replace_column (vl : value_labels) (c : column) : column :=
match dict_get (col_name c) vl with
| None => c
| Some ls =>
    let objs := to_objects (col_data c) in
    if existsb (has_label ls) objs
    then Column (col_name c) (ObjectData (map (substitute ls) objs))
    else c
end.

Definition replace (vl : value_labels) (df : DataFrame) : DataFrame :=
Frame (nrows df) (map (replace_column vl) (columns df)).

(** ** Files *)

Definition bytes : Type := list Byte.byte.

(** What a path names: a file with its content, or a directory. *)
#[warnings="-register-all"]
Inductive node : Type :=
| File (name : string) (content : bytes)
| Dir (name : string) (children : list node).

Definition node_name (n : node) : string :=
match n with
| File name _ => name
| Dir name _ => name
end.

(** The pattern [[0-9][0-9]_*] on a file name. *)
Definition territory_pattern (name : string) : bool :=
match name with
| String c1 (String c2 (String c3 _)) =>
    is_digit c1 && is_digit c2 && Ascii.eqb c3 "_"
| _ => false
end.

(** [Path(folder).glob("**/[0-9][0-9]_*")]: in the folder, then in each of
    its sub-directories recursively, the entries (files or directories)
    whose name matches. *)
Fixpoint glob_territories (folder : node) : list node :=
match folder with
| File _ _ => []
| Dir _ children =>
    filter (fun n => territory_pattern (node_name n)) children
    ++ flat_map glob_territories children
end.

(** An opened zip archive: its entries in directory order. A name that
    occurs twice is read as its last entry. *)
Definition zip : Type := list (string * bytes).

Definition namelist (z : zip) : list string := map fst z.

Definition zip_open (z : zip) (name : string) : result bytes :=
getitem (rev z) name.

Fixpoint foldM {A S : Type} (f : S -> A -> result S) (l : list A) (s : S)
  : result S :=
match l with
| [] => OK s
| x :: xs => s' <- f s x ;; foldM f xs s'
end.

(** The record types, in the order of the accumulator's keys. *)
Definition record_types : list string :=
[viviendas; hogares; fallecidos; personas; marco_georreferenciacion].

Definition initial_dfs : dict DataFrame :=
[ (viviendas, empty_DataFrame);
  (hogares, empty_DataFrame);
  (fallecidos, empty_DataFrame);
  (personas, empty_DataFrame);
  (marco_georreferenciacion, empty_DataFrame) ].

(** ** Computations that query the dictionary

    A computation may raise and records, in order, the schema identifiers
    the dictionary was asked for. *)

Definition query (A : Type) : Type := list string -> result A * list string.

Definition qret {A : Type} (v : A) : query A := fun log => (OK v, log).

Definition qbind {A B : Type} (c : query A) (k : A -> query B) : query B :=
fun log =>
  match c log with
  | (OK v, log') => k v log'
  | (Err e, log') => (Err e, log')
  end.

Definition qlift {A : Type} (r : result A) : query A := fun log => (r, log).

Notation "x <~ c ;; k" := (qbind c (fun x => k))
  (at level 61, c at next level, right associativity) : result_scope.

Fixpoint qfoldM {A S : Type} (f : S -> A -> query S) (l : list A) (s : S)
  : query S :=
match l with
| [] => qret s
| x :: xs => s' <~ f s x ;; qfoldM f xs s'
end.

Section Pipeline.

(** The implementation of [DataFrame.update] of the installed pandas. *)
Variable impl : update_impl.
(** [zipfile.ZipFile] on the bytes of a file. *)
Variable ZipFile : bytes -> result zip.
(** [pd.read_stata] *)
Variable read_stata : bytes -> result DataFrame.
(** [bytes.decode("utf-8")] *)
Variable decode_utf8 : bytes -> result string.
(** A parsed CSPro dictionary, [DictionaryParser(raw)] followed by
    [parse()], and its [get_value_labels]. *)
Variable parser : Type.
Variable DictionaryParser : string -> result parser.
Variable get_value_labels : parser -> string -> result value_labels.

Definition ReadStataData (data : bytes) : result DataFrame :=
df <- read_stata data ;;
CleanDataframe impl df.

(** The loop over the files of one nested archive. *)
Definition read_dta_archive (dta_archive : zip) (df_dictionary : dict DataFrame)
  : result (dict DataFrame) :=
foldM (fun df_dictionary filename =>
         dataframe_name <- MapDataframeName filename ;;
         dta_file <- zip_open dta_archive filename ;;
         df <- ReadStataData dta_file ;;
         OK (dict_set dataframe_name df df_dictionary))
      (namelist dta_archive) df_dictionary.

Definition ReadZippedStataData (file_path : node) : result (dict DataFrame) :=
match file_path with
| Dir _ _ => Err IsADirectoryError
| File _ content =>
    data_archive <- ZipFile content ;;
    let dta_archive_list :=
      filter (fun filename => endswith (lower filename) "dta.zip")
             (namelist data_archive) in
    foldM (fun df_dictionary filename =>
             dta_archive_filedata <- zip_open data_archive filename ;;
             dta_archive <- ZipFile dta_archive_filedata ;;
             read_dta_archive dta_archive df_dictionary)
          dta_archive_list []
end.

(** [dfs[key] = pd.concat([current_dfs[key], dfs[key]])] *)
Definition concat_key (current_dfs dfs : dict DataFrame) (key : string)
  : result (dict DataFrame) :=
current <- getitem current_dfs key ;;
accumulated <- getitem dfs key ;;
OK (dict_set key (concat current accumulated) dfs).

(** The loop [for key in dfs] of [ReadDataFolder]. *)
Definition concat_territory (current_dfs dfs : dict DataFrame)
  : result (dict DataFrame) :=
foldM (concat_key current_dfs) (keys dfs) dfs.

Definition ReadDataFolder (folder_path : node) : result (dict DataFrame) :=
let dfs := initial_dfs in
let pathlist := glob_territories folder_path in
foldM (fun dfs path =>
         current_dfs <- ReadZippedStataData path ;;
         concat_territory current_dfs dfs)
      pathlist dfs.

Definition ReadCSProDct (dict_path : node) : result parser :=
match dict_path with
| Dir _ _ => Err IsADirectoryError
| File _ content =>
    dict_archive <- ZipFile content ;;
    dict_file <- zip_open dict_archive "Diccionario_datosCNPV.dcf" ;;
    raw_dictionary <- decode_utf8 dict_file ;;
    DictionaryParser raw_dictionary
end.

Definition GetValueLabels (dictionary_parser : parser) (table_name : string)
  : query value_labels :=
schema_id <~ qlift (MapRecordName table_name) ;;
fun log => (get_value_labels dictionary_parser schema_id, log ++ [schema_id]).

(** The body of the loop of [CreateProcessedDataframe]:
    [if name != "marco_georreferenciacion": dfs[name] = df.replace(...)]. *)
Definition label_item (dictionary_parser : parser) (dfs : dict DataFrame)
  (item : string * DataFrame) : query (dict DataFrame) :=
let '(name, df) := item in
if negb (String.eqb name marco_georreferenciacion)
then vl <~ GetValueLabels dictionary_parser name ;;
     qret (dict_set name (replace vl df) dfs)
else qret dfs.

(** The loop [for name, df in dfs.items()] of [CreateProcessedDataframe].
    Assigning to a key that is present keeps the items in place, and each
    key is visited once: the table read for a key is the one of the input. *)
Definition ApplyLabels (dfs : dict DataFrame) (dictionary_parser : parser)
  : query (dict DataFrame) :=
qfoldM (label_item dictionary_parser) dfs dfs.

Definition CreateProcessedDataframe (folder_path dict_path : node)
  : query (dict DataFrame) :=
dfs <~ qlift (ReadDataFolder folder_path) ;;
dictionary_parser <~ qlift (ReadCSProDct dict_path) ;;
ApplyLabels dfs dictionary_parser.

End Pipeline.

(** ** Example collaborators and inputs

    A toy archive format: an outer archive is the byte 01 followed by a
    territory byte and holds one nested archive per record type; a nested
    archive is the byte 02, a record-type byte and the territory byte, and
    holds one Stata file; a Stata file decodes to a one-row table. *)

Definition example_codes : list (Byte.byte * string) :=
[ (Byte.x01, "1VIV"); (Byte.x02, "2HOG"); (Byte.x03, "3FALL");
  (Byte.x04, "5PER"); (Byte.x05, "MGN") ].

Definition example_ZipFile (b : bytes) : result zip :=
match b with
| [Byte.x00] => OK []
| [Byte.x01; t] =>
    OK (map (fun p => (("CNPV2018_" ++ snd p ++ "_DTA.zip")%string, [Byte.x02; fst p; t]))
            example_codes)
| [Byte.x02; c; t] =>
    OK (map (fun p => (("CNPV2018_" ++ snd p ++ "_A2.DTA")%string, [Byte.x03; c; t]))
            (filter (fun p => Byte.eqb (fst p) c) example_codes))
| [Byte.x06] => OK [("CNPV2018_DTA.ZIP", [Byte.x07])]
| [Byte.x07] => OK [("CNPV2018_9XYZ_A2.DTA", [Byte.x03; Byte.x01; Byte.x05])]
| _ => Err BadZipFile
end.

Definition example_read_stata (b : bytes) : result DataFrame :=
match b with
| [Byte.x03; c; t] =>
    OK (Frame 1 [ Column "u_dpto" (IntData [Z.of_N (Byte.to_N t)]);
                  Column "cod_encuestas" (Float64Data [FRat (inject_Z (Z.of_N (Byte.to_N c)))]) ])
| _ => Err ValueError
end.

Definition example_folder : node :=
Dir "data"
  [ File "LEEME.txt" [];
    Dir "zips" [ File "05_Antioquia.zip" [Byte.x01; Byte.x05];
                 File "08_Atlantico.zip" [Byte.x01; Byte.x08] ] ].

Definition example_folder_no_match : node :=
Dir "data" [ File "LEEME.txt" []; Dir "zips" [ File "Antioquia_05.zip" [Byte.x01; Byte.x05] ] ].

Definition example_folder_no_inner : node :=
Dir "data" [ File "05_Antioquia.zip" [Byte.x00] ].

Definition example_decode_utf8 (b : bytes) : result string :=
OK (string_of_list_byte b).

Definition example_labels : value_labels :=
[ ("COD_ENCUESTAS", [ (PyInt 1, "Vivienda"); (PyInt 7, "Otro") ]) ].

Definition example_get_value_labels (p : unit) (schema_id : string)
  : result value_labels :=
if String.eqb schema_id "REGVIV" then OK example_labels else OK [].

(** The first of the keys [ks] that the mapping [m] lacks. *)
Definition first_missing (m : dict DataFrame) (ks : list string) : option string :=
find (fun k => match dict_get k m with None => true | Some _ => false end) ks.

(** A decoded territory holds a table for each of the five record types. *)
Definition complete (m : dict DataFrame) : Prop :=
forall k, In k record_types -> exists t, dict_get k m = Some t.

(** The accumulator of [ReadDataFolder]: one table per record type. *)
Definition five_tables (t1 t2 t3 t4 t5 : DataFrame) : dict DataFrame :=
[ (viviendas, t1);
  (hogares, t2);
  (fallecidos, t3);
  (personas, t4);
  (marco_georreferenciacion, t5) ].



(** The decoded territories of the example folder. *)
Definition example_decoded (path : node) : dict DataFrame :=
match ReadZippedStataData ReplaceColumn example_ZipFile example_read_stata path with
| OK m => m
| Err _ => []
end.

Definition example_path_05 : node := File "05_Antioquia.zip" [Byte.x01; Byte.x05].
Definition example_path_08 : node := File "08_Atlantico.zip" [Byte.x01; Byte.x08].

(** The four schema identifiers of the dictionary. *)
Definition schema_identifiers : list string := ["REGVIV"; "REGHOG"; "REGFALL"; "REGPER"].




Definition example_viviendas : DataFrame :=
Frame 2 [ Column "COD_ENCUESTAS" (ObjectData [PyInt 1; PyInt 2]);
          Column "U_DPTO" (IntData [5%Z; 7%Z]) ].

Definition example_georeference : DataFrame :=
Frame 1 [ Column "COD_ENCUESTAS" (ObjectData [PyInt 1]) ].

Definition example_tables : dict DataFrame :=
five_tables example_viviendas example_georeference empty_DataFrame empty_DataFrame
            example_georeference.

(** The tables of [example_tables] after label substitution. *)
Definition example_labelled : dict DataFrame :=
match fst (ApplyLabels unit example_get_value_labels example_tables tt []) with
| OK dfs => dfs
| Err _ => []
end.

(** A schema identifier the dictionary may be asked for: that of a record
    type other than the georeference frame. *)
Definition proper_query (q : string) : Prop :=
In q schema_identifiers /\
exists name, name <> marco_georreferenciacion /\ MapRecordName name = OK q.

(** ** Further definitions for the properties of the pipeline *)

(** The record types that have a schema identifier. *)
Definition schema_record_types : list string :=
[viviendas; hogares; fallecidos; personas].

(** Every column name is its own upper-case form. *)
Definition upper_names (t : DataFrame) : Prop :=
Forall (fun n => upper n = n) (column_names t).


(** The table a decoded territory holds for a record type ([DataFrame()]
    when it has none). *)
Definition table_of (k : string) (m : dict DataFrame) : DataFrame :=
match dict_get k m with
| Some t => t
| None => empty_DataFrame
end.

(** [entry_of folder n]: [n] is an entry of [folder], at any depth. *)
Inductive entry_of : node -> node -> Prop :=
| entry_child (name : string) (children : list node) (n : node) :
    In n children -> entry_of (Dir name children) n
| entry_deeper (name : string) (children : list node) (d n : node) :
    In d children -> entry_of d n -> entry_of (Dir name children) n.

Section ColumnLabels.

Variable parser : Type.
(** [DictionaryParser.get_column_labels] *)
Variable get_column_labels : parser -> string -> result (dict string).

Definition GetColumnNames (dictionary_parser : parser) (table_name : string)
  : query (dict string) :=
schema_id <~ qlift (MapRecordName table_name) ;;
fun log => (get_column_labels dictionary_parser schema_id, log ++ [schema_id]).

End ColumnLabels.

Definition example_get_column_labels (p : unit) (schema_id : string)
  : result (dict string) :=
OK [("U_DPTO", "Departamento")].

Definition example_dictionary : node := File "Diccionario.zip" [Byte.x09].

Definition example_dictionary_ZipFile (b : bytes) : result zip :=
match b with
| [Byte.x09] => OK [("Diccionario_datosCNPV.dcf", [Byte.x41])]
| [Byte.x0a] => OK [("LEEME.txt", [])]
| _ => Err BadZipFile
end.

Definition example_DictionaryParser (raw : string) : result unit := OK tt.

(** What every decoded territory satisfies. *)
Definition decoded (m : dict DataFrame) : Prop :=
incl (keys m) record_types /\
NoDup (keys m) /\
Forall (fun kv => upper_names (snd kv)) m.

(** The rows the decoded territories [ms] hold for a record type. *)
Definition territory_rows (k : string) (ms : list (dict DataFrame)) : nat :=
list_sum (map (fun m => nrows (table_of k m)) ms).

(** Further example inputs. *)

Definition example_ZipFile_corrupt (b : bytes) : result zip :=
match b with
| [Byte.x0b] => OK [("CNPV2018_1VIV_dta.zip", [Byte.xff])]
| _ => Err BadZipFile
end.

Definition example_read_stata_fractional (b : bytes) : result DataFrame :=
OK fractional_table.

Definition example_unified : dict DataFrame :=
match ReadDataFolder ReplaceColumn example_ZipFile example_read_stata example_folder with
| OK dfs => dfs
| Err _ => []
end.

Definition example_folder_directory : node :=
Dir "data" [ Dir "05_Antioquia" [ File "CNPV2018_1VIV_A2_05.DTA" [] ] ].

Definition example_folder_single : node :=
Dir "data" [ example_path_05 ].



Definition example_get_value_labels_failing (p : unit) (schema_id : string)
  : result value_labels :=
if String.eqb schema_id "REGHOG" then Err ValueError else OK [].


(** Two entries under one key, with tables of the same number of rows and
    the same column names. *)
Definition same_shape (a b : string * DataFrame) : Prop :=
fst b = fst a /\
nrows (snd b) = nrows (snd a) /\
column_names (snd b) = column_names (snd a).

(** A zip reader for the territory archives and the dictionary archive of
    the examples, and the processed tables of the example folder. *)
Definition example_ZipFile_all (b : bytes) : result zip :=
match example_ZipFile b with
| OK z => OK z
| Err _ => example_dictionary_ZipFile b
end.

Definition example_processed : dict DataFrame :=
match fst (CreateProcessedDataframe ReplaceColumn example_ZipFile_all example_read_stata
             example_decode_utf8 unit example_DictionaryParser
             example_get_value_labels example_folder example_dictionary []) with
| OK dfs => dfs
| Err _ => []
end.

(** * Properties *)

(** ** Strings *)

Lemma split_nonempty (sep : ascii) (s : string) : split sep s <> [].
Proof.
induction s as [|c s IH]; simpl; [discriminate|].
destruct (Ascii.eqb c sep); [discriminate|].
destruct (split sep s); [contradiction|discriminate].
Qed.

(** Joining the segments gives the string back: the model of [split] loses
    nothing. *)
Lemma join_split (sep : ascii) (s : string) : join sep (split sep s) = s.
Proof.
induction s as [|c s IH]; simpl; [reflexivity|].
destruct (Ascii.eqb c sep) eqn:E.
- apply Ascii.eqb_eq in E; subst c.
  pose proof (split_nonempty sep s) as Hne.
  destruct (split sep s) as [|seg rest]; [contradiction|].
  simpl in *. now rewrite IH.
- pose proof (split_nonempty sep s) as Hne.
  destruct (split sep s) as [|seg rest]; [contradiction|].
  destruct rest; simpl in *; now rewrite IH.
Qed.

(** No segment contains the separator. *)
Lemma split_no_sep (sep : ascii) (s : string) :
  Forall (fun seg => contains_char sep seg = false) (split sep s).
Proof.
induction s as [|c s IH]; simpl.
- constructor; [reflexivity|constructor].
- destruct (Ascii.eqb c sep) eqn:E.
  + constructor; [reflexivity|assumption].
  + destruct (split sep s) as [|seg rest].
    * constructor; [simpl; now rewrite E|constructor].
    * inversion IH; subst. constructor; [simpl; now rewrite E|assumption].
Qed.

(** The text before the first separator is the first segment. *)
Lemma split_prefix (sep : ascii) (pre rest : string) :
  contains_char sep pre = false ->
  split sep (pre ++ String sep rest) = pre :: split sep rest.
Proof.
induction pre as [|c pre IH]; simpl; intros H.
- now rewrite Ascii.eqb_refl.
- apply orb_false_iff in H as [Hc Hpre].
  rewrite Hc, (IH Hpre). reflexivity.
Qed.

Lemma split_whole (sep : ascii) (s : string) :
  contains_char sep s = false -> split sep s = [s].
Proof.
induction s as [|c s IH]; simpl; intros H; [reflexivity|].
apply orb_false_iff in H as [Hc Hs].
now rewrite Hc, (IH Hs).
Qed.

(** A file name [pre_seg] or [pre_seg_post], with no underscore in [pre]
    and [seg], has [seg] as its second segment. *)
Lemma second_segment (pre seg post : string) :
  contains_char "_" pre = false ->
  contains_char "_" seg = false ->
  nth_error (split "_" (pre ++ String "_" seg)) 1 = Some seg /\
  nth_error (split "_" (pre ++ String "_" (seg ++ String "_" post))) 1 = Some seg.
Proof.
intros Hpre Hseg. split.
- now rewrite (split_prefix "_" pre seg Hpre), (split_whole "_" seg Hseg).
- now rewrite (split_prefix "_" pre _ Hpre), (split_prefix "_" seg post Hseg).
Qed.

(** ** Record Type Mapper *)

(** X1. A file name without underscore has no second segment: the indexing
    raises. *)
Lemma MapDataframeName_no_underscore (filename : string) :
  contains_char "_" filename = false -> MapDataframeName filename = Err IndexError.
Proof.
intros H. unfold MapDataframeName. now rewrite (split_whole "_" filename H).
Qed.

Lemma getitem_not_in (V : Type) (d : dict V) (k : string) :
  ~ In k (keys d) -> getitem d k = Err (KeyError k).
Proof.
unfold getitem. induction d as [|[k' v] d IH]; simpl; intros H; [reflexivity|].
destruct (String.eqb k k') eqn:E.
- apply String.eqb_eq in E. subst. exfalso. apply H. now left.
- apply IH. intros Hin. apply H. now right.
Qed.

(** C1. [MapDataframeName]: a filename whose second underscore-delimited
    segment is 1VIV, 2HOG, 3FALL, 5PER or MGN is mapped to viviendas, hogares,
    fallecidos, personas or marco_georreferenciacion respectively; a filename
    whose second segment is anything else raises (a [KeyError] on that
    segment). *)
Theorem MapDataframeName_spec (filename seg : string) :
  nth_error (split "_" filename) 1 = Some seg ->
  (seg = "1VIV" -> MapDataframeName filename = OK viviendas) /\
  (seg = "2HOG" -> MapDataframeName filename = OK hogares) /\
  (seg = "3FALL" -> MapDataframeName filename = OK fallecidos) /\
  (seg = "5PER" -> MapDataframeName filename = OK personas) /\
  (seg = "MGN" -> MapDataframeName filename = OK marco_georreferenciacion) /\
  (~ In seg dataframe_codes -> MapDataframeName filename = Err (KeyError seg)).
Proof.
intros Hseg. unfold MapDataframeName, list_index. rewrite Hseg. simpl bind.
repeat split; try (intros ->; reflexivity).
intros Hnot. apply getitem_not_in. exact Hnot.
Qed.

Lemma MapDataframeName_spec_witness :
  nth_error (split "_" "CNPV2018_1VIV_A2_05.DTA") 1 = Some "1VIV" /\
  MapDataframeName "CNPV2018_1VIV_A2_05.DTA" = OK viviendas.
Proof.
split; [reflexivity|].
apply (MapDataframeName_spec "CNPV2018_1VIV_A2_05.DTA" "1VIV"); reflexivity.
Defined.

(** C9. [MapRecordName] returns REGVIV, REGHOG, REGFALL and REGPER for
    viviendas, hogares, fallecidos and personas, and raises (a [KeyError])
    for marco_georreferenciacion. *)
Theorem MapRecordName_spec :
  MapRecordName viviendas = OK "REGVIV" /\
  MapRecordName hogares = OK "REGHOG" /\
  MapRecordName fallecidos = OK "REGFALL" /\
  MapRecordName personas = OK "REGPER" /\
  MapRecordName marco_georreferenciacion = Err (KeyError marco_georreferenciacion).
Proof. repeat split; reflexivity. Qed.

(** ** Table Cleaner *)

Lemma upper_char_idempotent (c : ascii) : upper_char (upper_char c) = upper_char c.
Proof.
destruct c as [b0 b1 b2 b3 b4 b5 b6 b7];
  destruct b0, b1, b2, b3, b4, b5, b6, b7; reflexivity.
Qed.

Lemma upper_idempotent (s : string) : upper (upper s) = upper s.
Proof.
unfold upper. induction s as [|c s IH]; simpl; [reflexivity|].
now rewrite upper_char_idempotent, IH.
Qed.























(** The element type of a converted column is never the nullable integer
    type: [update] stores the integers in an object column or in the float64
    column itself. *)
Lemma CleanDataframe_dtype (impl : update_impl) :
  exists df', CleanDataframe impl example_table = OK df' /\
              map col_dtype (columns df')
              = [NumpyInt; match impl with ReplaceColumn => Object | SetInPlace => Float64 end; Object].
Proof. destruct impl; eexists; split; reflexivity. Qed.












(** ** Archive Decoder *)

Lemma foldM_fails (A S : Type) (f : S -> A -> result S) (l : list A) (x : A) :
  In x l ->
  (forall s, exists e, f s x = Err e) ->
  forall s, exists e, foldM f l s = Err e.
Proof.
intros Hin Hx. induction l as [|a l IH]; simpl; [contradiction|].
intros s. destruct Hin as [->|Hin].
- destruct (Hx s) as [e He]. exists e. now rewrite He.
- destruct (f s a) as [s'|e]; simpl; [now apply IH|now exists e].
Qed.

(** ** Concatenation *)

Lemma concat_empty_right (a : DataFrame) : concat a empty_DataFrame = a.
Proof.
unfold concat. destruct (is_empty_shape a) eqn:E; [|reflexivity].
destruct a as [n cols]. unfold is_empty_shape in E. simpl in E.
apply Nat.eqb_eq in E. destruct n; [|discriminate].
destruct cols; [reflexivity|discriminate].
Qed.

Lemma concat_nrows (a b : DataFrame) : nrows (concat a b) = (nrows a + nrows b)%nat.
Proof.
unfold concat, is_empty_shape.
destruct (nrows a + List.length (columns a) =? 0)%nat eqn:Ea.
- apply Nat.eqb_eq in Ea. lia.
- destruct (nrows b + List.length (columns b) =? 0)%nat eqn:Eb; [|reflexivity].
  apply Nat.eqb_eq in Eb. lia.
Qed.



Lemma find_column_not_in (n : string) (cols : list column) :
  ~ In n (map col_name cols) -> find_column n cols = None.
Proof.
induction cols as [|c cols IH]; simpl; intros H; [reflexivity|].
destruct (String.eqb n (col_name c)) eqn:E.
- apply String.eqb_eq in E. exfalso. apply H. now left.
- apply IH. intros Hin. apply H. now right.
Qed.









Section PipelineProperties.

Variable impl : update_impl.
Variable ZipFile : bytes -> result zip.
Variable read_stata : bytes -> result DataFrame.

Local Abbreviation decode := (ReadZippedStataData impl ZipFile read_stata).
Local Abbreviation aggregate := (ReadDataFolder impl ZipFile read_stata).

(** C6. Decoding a territory archive is fail-fast: when a file of a nested
    archive (an entry of the outer archive whose lower-cased name ends with
    dta.zip) has a name that [MapDataframeName] rejects, the decode of the
    whole archive raises; no mapping is returned. *)
Theorem ReadZippedStataData_fail_fast
  (name : string) (content nested : bytes) (data_archive dta_archive : zip)
  (filename bad : string) (e : exn) :
  ZipFile content = OK data_archive ->
  In filename (namelist data_archive) ->
  endswith (lower filename) "dta.zip" = true ->
  zip_open data_archive filename = OK nested ->
  ZipFile nested = OK dta_archive ->
  In bad (namelist dta_archive) ->
  MapDataframeName bad = Err e ->
  exists e', decode (File name content) = Err e'.
Proof.
intros Hzip Hin Hsuffix Hopen Hnested Hbad Hmap.
unfold ReadZippedStataData. rewrite Hzip. simpl.
apply foldM_fails with (x := filename).
- apply filter_In. now split.
- intros d. rewrite Hopen. simpl. rewrite Hnested. simpl.
  unfold read_dta_archive. apply foldM_fails with (x := bad); [exact Hbad|].
  intros d'. exists e. now rewrite Hmap.
Qed.

(** X10. An outer archive without any entry ending in dta.zip decodes to the
    empty mapping. *)
Lemma ReadZippedStataData_no_inner (name : string) (content : bytes) (data_archive : zip) :
  ZipFile content = OK data_archive ->
  filter (fun filename => endswith (lower filename) "dta.zip") (namelist data_archive) = [] ->
  decode (File name content) = OK [].
Proof.
intros Hzip Hnone. unfold ReadZippedStataData. rewrite Hzip. simpl.
now rewrite Hnone.
Qed.

(** ** Folder Aggregator *)

Lemma glob_empty_folder (name : string) : glob_territories (Dir name []) = [].
Proof. reflexivity. Qed.

(** C7. On a folder in which no entry matches the territory pattern,
    [ReadDataFolder] returns, without raising, the mapping of the five record
    types, each bound to an empty table. *)
Theorem ReadDataFolder_no_match (folder_path : node) :
  glob_territories folder_path = [] ->
  aggregate folder_path = OK initial_dfs /\
  keys initial_dfs = record_types /\
  forall k, In k record_types ->
            dict_get k initial_dfs = Some empty_DataFrame /\
            nrows empty_DataFrame = 0%nat /\ columns empty_DataFrame = [].
Proof.
intros Hglob. unfold ReadDataFolder. rewrite Hglob. simpl.
repeat split; try reflexivity.
simpl in H. repeat (destruct H as [<-|H]; [reflexivity|]). contradiction.
Qed.

Lemma dict_set_keys (V : Type) (k : string) (v : V) (d : dict V) :
  In k (keys d) -> keys (dict_set k v d) = keys d.
Proof.
induction d as [|[k' v'] d IH]; simpl; [contradiction|].
intros Hin. destruct (String.eqb k k') eqn:E; simpl; [reflexivity|].
f_equal. apply IH. destruct Hin as [Heq|Hin]; [|exact Hin].
apply String.eqb_neq in E. congruence.
Qed.

Lemma dict_get_in_keys (V : Type) (k : string) (d : dict V) :
  In k (keys d) -> exists v, dict_get k d = Some v.
Proof.
induction d as [|[k' v'] d IH]; simpl; [contradiction|].
intros Hin. destruct (String.eqb k k') eqn:E; [now exists v'|].
apply IH. destruct Hin as [Heq|Hin]; [|exact Hin].
apply String.eqb_neq in E. congruence.
Qed.

Lemma concat_key_ok (m dfs : dict DataFrame) (k : string) (cur acc : DataFrame) :
  dict_get k m = Some cur -> dict_get k dfs = Some acc ->
  concat_key m dfs k = OK (dict_set k (concat cur acc) dfs).
Proof.
intros Hm Hd. unfold concat_key, getitem. now rewrite Hm, Hd.
Qed.

Lemma concat_key_missing (m dfs : dict DataFrame) (k : string) :
  dict_get k m = None -> concat_key m dfs k = Err (KeyError k).
Proof.
intros Hm. unfold concat_key, getitem. now rewrite Hm.
Qed.

(** The loop over the keys stops at the first key the decoded territory
    lacks, and otherwise keeps the keys of the accumulator. *)
Lemma concat_keys_loop (m : dict DataFrame) (ks : list string) :
  forall dfs, incl ks (keys dfs) ->
  match first_missing m ks with
  | Some k => foldM (concat_key m) ks dfs = Err (KeyError k)
  | None => exists dfs', foldM (concat_key m) ks dfs = OK dfs' /\ keys dfs' = keys dfs
  end.
Proof.
unfold first_missing.
induction ks as [|a ks IH]; simpl; intros dfs Hincl; [now exists dfs|].
destruct (dict_get a m) as [cur|] eqn:Hm.
- assert (Ha : In a (keys dfs)) by (apply Hincl; now left).
  destruct (dict_get_in_keys _ a dfs Ha) as [acc Hacc].
  rewrite (concat_key_ok _ _ _ _ _ Hm Hacc). simpl.
  specialize (IH (dict_set a (concat cur acc) dfs)).
  rewrite (dict_set_keys _ _ _ _ Ha) in IH.
  apply IH. intros k Hk. apply Hincl. now right.
- now rewrite (concat_key_missing _ _ _ Hm).
Qed.

Lemma concat_territory_complete (m dfs : dict DataFrame) :
  keys dfs = record_types -> complete m ->
  exists dfs', concat_territory m dfs = OK dfs' /\ keys dfs' = record_types.
Proof.
intros Hkeys Hm. unfold concat_territory.
pose proof (concat_keys_loop m (keys dfs) dfs (incl_refl _)) as H.
destruct (first_missing m (keys dfs)) as [k|] eqn:E.
- unfold first_missing in E. apply find_some in E as [Hin Hnone].
  rewrite Hkeys in Hin. destruct (Hm k Hin) as [t Ht]. rewrite Ht in Hnone.
  discriminate.
- destruct H as [dfs' [H1 H2]]. exists dfs'. split; [exact H1|congruence].
Qed.

Lemma foldM_app (A S : Type) (f : S -> A -> result S) (l1 l2 : list A) (s : S) :
  foldM f (l1 ++ l2) s = (s' <- foldM f l1 s ;; foldM f l2 s').
Proof.
revert s. induction l1 as [|a l1 IH]; simpl; intros s; [reflexivity|].
destruct (f s a); simpl; [apply IH|reflexivity].
Qed.

Lemma aggregate_complete (paths : list node) :
  forall dfs, keys dfs = record_types ->
  (forall p, In p paths -> exists m, decode p = OK m /\ complete m) ->
  exists dfs',
    foldM (fun dfs path =>
             current_dfs <- decode path ;; concat_territory current_dfs dfs)
          paths dfs = OK dfs' /\ keys dfs' = record_types.
Proof.
induction paths as [|p paths IH]; simpl; intros dfs Hkeys Hall; [now exists dfs|].
destruct (Hall p (or_introl eq_refl)) as [m [Hm Hc]]. rewrite Hm. simpl.
destruct (concat_territory_complete m dfs Hkeys Hc) as [dfs1 [H1 H2]].
rewrite H1. simpl. apply IH; [exact H2|].
intros q Hq. apply Hall. now right.
Qed.

(** C10. When a matched archive decodes to a mapping that lacks one of the
    five record types, the archives before it being complete, the aggregation
    raises [KeyError] on the first key that is missing; the archive is not
    skipped and the missing table is not taken as empty. *)
Theorem ReadDataFolder_missing_key
  (folder_path : node) (pre post : list node) (path : node)
  (m : dict DataFrame) (missing : string) :
  glob_territories folder_path = pre ++ path :: post ->
  (forall p, In p pre -> exists m', decode p = OK m' /\ complete m') ->
  decode path = OK m ->
  In missing record_types ->
  dict_get missing m = None ->
  exists k, first_missing m record_types = Some k /\
            aggregate folder_path = Err (KeyError k).
Proof.
intros Hglob Hpre Hm Hin Hnone.
destruct (first_missing m record_types) as [k|] eqn:E.
- exists k. split; [reflexivity|].
  unfold ReadDataFolder. rewrite Hglob, foldM_app.
  destruct (aggregate_complete pre initial_dfs eq_refl Hpre) as [dfs [H1 H2]].
  rewrite H1. simpl. rewrite Hm. simpl.
  unfold concat_territory.
  pose proof (concat_keys_loop m (keys dfs) dfs (incl_refl _)) as H.
  rewrite <- H2 in E. rewrite E in H. now rewrite H.
- exfalso. unfold first_missing in E.
  pose proof (find_none _ _ E missing Hin) as H. simpl in H.
  now rewrite Hnone in H.
Qed.





End PipelineProperties.

Lemma ReadDataFolder_no_match_witness :
  ReadDataFolder ReplaceColumn example_ZipFile example_read_stata
    example_folder_no_match = OK initial_dfs.
Proof.
apply (ReadDataFolder_no_match ReplaceColumn example_ZipFile example_read_stata
         example_folder_no_match).
reflexivity.
Defined.

(** An outer archive without nested archives decodes to the empty mapping;
    the aggregation then fails on the first key. *)
Lemma ReadDataFolder_missing_key_witness :
  exists k, first_missing [] record_types = Some k /\
            ReadDataFolder ReplaceColumn example_ZipFile example_read_stata
              example_folder_no_inner = Err (KeyError k).
Proof.
apply (ReadDataFolder_missing_key ReplaceColumn example_ZipFile example_read_stata
         example_folder_no_inner [] [] (File "05_Antioquia.zip" [Byte.x00]) []
         marco_georreferenciacion).
- reflexivity.
- intros p [].
- reflexivity.
- simpl. tauto.
- reflexivity.
Defined.



Lemma ReadZippedStataData_fail_fast_witness :
  exists e', ReadZippedStataData SetInPlace example_ZipFile example_read_stata
               (File "05_Antioquia.zip" [Byte.x06]) = Err e'.
Proof.
apply (ReadZippedStataData_fail_fast SetInPlace example_ZipFile example_read_stata
         "05_Antioquia.zip" [Byte.x06] [Byte.x07]
         [("CNPV2018_DTA.ZIP", [Byte.x07])]
         [("CNPV2018_9XYZ_A2.DTA", [Byte.x03; Byte.x01; Byte.x05])]
         "CNPV2018_DTA.ZIP" "CNPV2018_9XYZ_A2.DTA" (KeyError "9XYZ")).
- reflexivity.
- simpl. now left.
- reflexivity.
- reflexivity.
- reflexivity.
- simpl. now left.
- reflexivity.
Defined.

(** ** Label Substitutor *)








Lemma dict_get_set_other (V : Type) (k k' : string) (v : V) (d : dict V) :
  k <> k' -> dict_get k (dict_set k' v d) = dict_get k d.
Proof.
intros Hne. induction d as [|[k0 v0] d IH]; simpl.
- apply String.eqb_neq in Hne. now rewrite Hne.
- destruct (String.eqb k' k0) eqn:E; simpl.
  + apply String.eqb_eq in E. subst k0.
    apply String.eqb_neq in Hne. now rewrite Hne.
  + destruct (String.eqb k k0); [reflexivity|exact IH].
Qed.

Lemma MapRecordName_ok (name q : string) :
  MapRecordName name = OK q -> name <> marco_georreferenciacion /\ In q schema_identifiers.
Proof.
unfold MapRecordName, getitem. simpl.
destruct (String.eqb name viviendas) eqn:E1; [intros H; inversion H; subst|].
{ apply String.eqb_eq in E1. subst. split; [discriminate|simpl; tauto]. }
destruct (String.eqb name hogares) eqn:E2; [intros H; inversion H; subst|].
{ apply String.eqb_eq in E2. subst. split; [discriminate|simpl; tauto]. }
destruct (String.eqb name fallecidos) eqn:E3; [intros H; inversion H; subst|].
{ apply String.eqb_eq in E3. subst. split; [discriminate|simpl; tauto]. }
destruct (String.eqb name personas) eqn:E4; [intros H; inversion H; subst|].
{ apply String.eqb_eq in E4. subst. split; [discriminate|simpl; tauto]. }
discriminate.
Qed.

Section LabelProperties.

Variable parser : Type.
Variable get_value_labels : parser -> string -> result value_labels.

Local Abbreviation apply_labels := (ApplyLabels parser get_value_labels).

(** One pass of the loop leaves the georeference entry alone and sends at
    most one query, a proper one. *)
Lemma label_item_spec (p : parser) (acc : dict DataFrame) (name : string)
  (df : DataFrame) (log : list string) :
  (forall acc', fst (label_item parser get_value_labels p acc (name, df) log) = OK acc' ->
     dict_get marco_georreferenciacion acc' = dict_get marco_georreferenciacion acc /\
     (In name (keys acc) -> keys acc' = keys acc)) /\
  exists qs, snd (label_item parser get_value_labels p acc (name, df) log) = log ++ qs /\
             Forall proper_query qs.
Proof.
unfold label_item.
destruct (String.eqb name marco_georreferenciacion) eqn:Eg; cbn [negb].
- unfold qret. simpl. split; [intros acc' H; inversion H; now split|].
  exists []. split; [now rewrite app_nil_r|constructor].
- unfold GetValueLabels, qbind, qlift, qret.
  destruct (MapRecordName name) as [q|e] eqn:Eq.
  + destruct (MapRecordName_ok name q Eq) as [Hne Hq].
    assert (Hproper : proper_query q) by (split; [exact Hq|now exists name]).
    destruct (get_value_labels p q) as [vl|e]; simpl.
    * split.
      -- intros acc' H. inversion H; subst. split.
         ++ apply dict_get_set_other. congruence.
         ++ intros Hin. now apply dict_set_keys.
      -- exists [q]. split; [reflexivity|now constructor].
    * split; [discriminate|]. exists [q]. split; [reflexivity|now constructor].
  + simpl. split; [discriminate|].
    exists []. split; [now rewrite app_nil_r|constructor].
Qed.

Lemma qfoldM_cons (A S : Type) (f : S -> A -> query S) (x : A) (xs : list A)
  (s : S) (log : list string) :
  qfoldM f (x :: xs) s log
  = match fst (f s x log) with
    | OK s' => qfoldM f xs s' (snd (f s x log))
    | Err e => (Err e, snd (f s x log))
    end.
Proof.
simpl. unfold qbind. destruct (f s x log) as [[s'|e] log']; reflexivity.
Qed.

(** The loop leaves the georeference entry of the accumulator alone and
    only adds proper queries to the log. *)
Lemma apply_labels_loop (p : parser) (items : dict DataFrame) :
  forall (acc : dict DataFrame) (log : list string),
  (forall dfs',
     fst (qfoldM (label_item parser get_value_labels p) items acc log) = OK dfs' ->
     dict_get marco_georreferenciacion dfs' = dict_get marco_georreferenciacion acc /\
     (incl (keys items) (keys acc) -> keys dfs' = keys acc)) /\
  exists qs,
    snd (qfoldM (label_item parser get_value_labels p) items acc log) = log ++ qs /\
    Forall proper_query qs.
Proof.
induction items as [|[name df] items IH]; intros acc log.
- simpl. split; [intros dfs' H; inversion H; now split|].
  exists []. split; [now rewrite app_nil_r|constructor].
- rewrite qfoldM_cons.
  destruct (label_item_spec p acc name df log) as [S1 [qs1 [S2 S3]]].
  destruct (fst (label_item parser get_value_labels p acc (name, df) log))
    as [acc'|e] eqn:Estep.
  + destruct (S1 acc' eq_refl) as [G1 G2].
    destruct (IH acc' (snd (label_item parser get_value_labels p acc (name, df) log)))
      as [IH1 [qs [IH2 IH3]]].
    split.
    * intros dfs' H. destruct (IH1 dfs' H) as [K1 K2]. split; [congruence|].
      intros Hincl.
      assert (Hk : keys acc' = keys acc) by (apply G2, Hincl; now left).
      rewrite <- Hk. apply K2. rewrite Hk. intros k Hin. apply Hincl. now right.
    * exists (qs1 ++ qs). split.
      -- rewrite IH2, S2, app_assoc. reflexivity.
      -- apply Forall_app. now split.
  + simpl. split; [discriminate|]. exists qs1. now split.
Qed.

(** C4. Label substitution never modifies the georeference table: whenever
    it returns, the table bound to marco_georreferenciacion is the one of
    the input and the keys are those of the input; and every query sent to
    the dictionary is the schema identifier of a record type other than
    marco_georreferenciacion. *)
Theorem ApplyLabels_georeference (dfs : dict DataFrame) (p : parser) :
  (forall dfs', fst (apply_labels dfs p []) = OK dfs' ->
     dict_get marco_georreferenciacion dfs' = dict_get marco_georreferenciacion dfs /\
     keys dfs' = keys dfs) /\
  Forall proper_query (snd (apply_labels dfs p [])).
Proof.
destruct (apply_labels_loop p dfs dfs []) as [H1 [qs [H2 H3]]]. split.
- intros dfs' H. destruct (H1 dfs' H) as [G1 G2]. split; [exact G1|].
  apply G2, incl_refl.
- unfold ApplyLabels. rewrite H2. exact H3.
Qed.

(** Had the dictionary been asked for the georeference frame, the lookup of
    its schema identifier would have raised before any query. *)
Lemma GetValueLabels_georeference (p : parser) (log : list string) :
  GetValueLabels parser get_value_labels p marco_georreferenciacion log
  = (Err (KeyError marco_georreferenciacion), log).
Proof. reflexivity. Qed.


End LabelProperties.

Lemma ApplyLabels_georeference_witness :
  dict_get marco_georreferenciacion example_labelled = Some example_georeference /\
  keys example_labelled = record_types /\
  snd (ApplyLabels unit example_get_value_labels example_tables tt []) = schema_identifiers.
Proof.
destruct (ApplyLabels_georeference unit example_get_value_labels example_tables tt)
  as [H _].
destruct (H example_labelled eq_refl) as [H1 H2].
split; [exact H1|]. split; [exact H2|]. reflexivity.
Defined.


(** In the example, the value 1 of COD_ENCUESTAS has a label and is
    replaced; the value 2 and the column U_DPTO are unchanged. *)
Example ApplyLabels_example :
  dict_get viviendas example_labelled
  = Some (Frame 2 [ Column "COD_ENCUESTAS" (ObjectData [PyStr "Vivienda"; PyInt 2]);
                    Column "U_DPTO" (IntData [5%Z; 7%Z]) ]).
Proof. reflexivity. Qed.

(** * Further properties *)

(** ** Record Type Mapper *)

Lemma MapRecordName_cases (name q : string) :
  MapRecordName name = OK q ->
  (name = viviendas /\ q = "REGVIV") \/ (name = hogares /\ q = "REGHOG") \/
  (name = fallecidos /\ q = "REGFALL") \/ (name = personas /\ q = "REGPER").
Proof.
unfold MapRecordName, getitem. simpl.
destruct (String.eqb name viviendas) eqn:E1.
{ apply String.eqb_eq in E1. intros H. inversion H. tauto. }
destruct (String.eqb name hogares) eqn:E2.
{ apply String.eqb_eq in E2. intros H. inversion H. tauto. }
destruct (String.eqb name fallecidos) eqn:E3.
{ apply String.eqb_eq in E3. intros H. inversion H. tauto. }
destruct (String.eqb name personas) eqn:E4.
{ apply String.eqb_eq in E4. intros H. inversion H. tauto. }
discriminate.
Qed.

(** X2. A record type produced from a file name is one of the five, and every
    one of them but the georeference frame has a schema identifier: the two
    tables of the mapper fit together. *)
Theorem MapDataframeName_range (filename r : string) :
  MapDataframeName filename = OK r ->
  In r record_types /\
  (r = marco_georreferenciacion \/
   exists q, MapRecordName r = OK q /\ In q schema_identifiers).
Proof.
unfold MapDataframeName, list_index.
destruct (nth_error (split "_" filename) 1) as [seg|]; [|discriminate].
unfold bind, getitem. simpl.
destruct (String.eqb seg "1VIV").
{ intros H. inversion H. split; [simpl; tauto|]. right. exists "REGVIV". simpl. tauto. }
destruct (String.eqb seg "2HOG").
{ intros H. inversion H. split; [simpl; tauto|]. right. exists "REGHOG". simpl. tauto. }
destruct (String.eqb seg "3FALL").
{ intros H. inversion H. split; [simpl; tauto|]. right. exists "REGFALL". simpl. tauto. }
destruct (String.eqb seg "5PER").
{ intros H. inversion H. split; [simpl; tauto|]. right. exists "REGPER". simpl. tauto. }
destruct (String.eqb seg "MGN").
{ intros H. inversion H. split; [simpl; tauto|]. now left. }
discriminate.
Qed.

Lemma MapDataframeName_range_witness :
  In personas record_types /\
  (personas = marco_georreferenciacion \/
   exists q, MapRecordName personas = OK q /\ In q schema_identifiers).
Proof.
apply (MapDataframeName_range "CNPV2018_5PER_A2_05.DTA" personas). reflexivity.
Defined.

Lemma MapDataframeName_no_underscore_witness :
  MapDataframeName "LEEME.txt" = Err IndexError.
Proof.
apply (MapDataframeName_no_underscore "LEEME.txt"). reflexivity.
Defined.

(** X4. Any name other than the four record types with a schema raises
    [KeyError] on that name. *)
Theorem MapRecordName_unknown (name : string) :
  ~ In name schema_record_types ->
  MapRecordName name = Err (KeyError name).
Proof.
intros H. unfold MapRecordName. apply getitem_not_in. exact H.
Qed.

Lemma MapRecordName_unknown_witness :
  MapRecordName "VIVIENDAS" = Err (KeyError "VIVIENDAS").
Proof.
apply (MapRecordName_unknown "VIVIENDAS"). simpl. intuition discriminate.
Defined.

(** X5. Distinct record types have distinct schema identifiers. *)
Theorem MapRecordName_injective (a b q : string) :
  MapRecordName a = OK q -> MapRecordName b = OK q -> a = b.
Proof.
intros Ha Hb.
destruct (MapRecordName_cases a q Ha) as [[-> ->]|[[-> ->]|[[-> ->]|[-> ->]]]];
  destruct (MapRecordName_cases b _ Hb) as [[-> E]|[[-> E]|[[-> E]|[-> E]]]];
  try reflexivity; discriminate.
Qed.

Lemma MapRecordName_injective_witness : hogares = hogares.
Proof.
apply (MapRecordName_injective hogares hogares "REGHOG"); reflexivity.
Defined.

(** ** Table Cleaner *)

Lemma merge_values_length (this : list pyobj) (that : list (option Z)) :
  List.length (merge_values this that) = List.length this.
Proof.
revert that. induction this as [|x this IH]; intros that; simpl; [reflexivity|].
destruct that as [|[z|] that]; simpl; now rewrite IH.
Qed.

Lemma set_values_length (d : column_data) (merged : list pyobj) :
  data_length (set_values d merged) = List.length merged.
Proof.
unfold data_length. destruct d; simpl; rewrite ?length_map; reflexivity.
Qed.

Lemma update_column_shape (impl : update_impl) (other : dict (list (option Z)))
  (c : column) :
  col_name (update_column impl other c) = col_name c /\
  data_length (col_data (update_column impl other c)) = data_length (col_data c).
Proof.
unfold update_column. destruct (dict_get (col_name c) other) as [that|]; [|now split].
destruct (all_missing that); [now split|].
destruct impl; simpl; split; try reflexivity.
- unfold data_length at 1. simpl. apply merge_values_length.
- rewrite set_values_length. apply merge_values_length.
Qed.

Lemma CleanDataframe_names (impl : update_impl) (df df' : DataFrame) :
  CleanDataframe impl df = OK df' ->
  column_names df' = map upper (column_names df).
Proof.
unfold CleanDataframe. destruct (astype_Int64 (select_float64 df)) as [other|e];
  [|discriminate].
simpl. intros H. inversion H; subst; clear H.
unfold column_names, rename_upper, update. simpl. rewrite !map_map.
apply map_ext. intros c. simpl.
now rewrite (proj1 (update_column_shape impl other c)).
Qed.







(** ** Dictionaries *)

Lemma dict_set_keys_new (V : Type) (k : string) (v : V) (d : dict V) :
  ~ In k (keys d) -> keys (dict_set k v d) = keys d ++ [k].
Proof.
induction d as [|[k' v'] d IH]; simpl; intros H; [reflexivity|].
destruct (String.eqb k k') eqn:E.
- apply String.eqb_eq in E. subst. exfalso. apply H. now left.
- simpl. f_equal. apply IH. intros Hin. apply H. now right.
Qed.

Lemma dict_set_keys_incl (V : Type) (k : string) (v : V) (d : dict V) :
  incl (keys (dict_set k v d)) (k :: keys d).
Proof.
induction d as [|[k' v'] d IH]; simpl.
- intros x Hx. exact Hx.
- destruct (String.eqb k k'); simpl.
  + intros x Hx. now right.
  + intros x [Hx|Hx]; [right; now left|].
    destruct (IH x Hx) as [H|H]; [now left|right; now right].
Qed.

Lemma dict_set_NoDup (V : Type) (k : string) (v : V) (d : dict V) :
  NoDup (keys d) -> NoDup (keys (dict_set k v d)).
Proof.
intros Hnd. destruct (in_dec string_dec k (keys d)) as [Hin|Hnot].
- now rewrite (dict_set_keys V k v d Hin).
- rewrite (dict_set_keys_new V k v d Hnot).
  apply NoDup_app; [exact Hnd|repeat constructor; intros []|].
  intros x Hx [Heq|[]]. subst. contradiction.
Qed.

Lemma dict_get_set_same (V : Type) (k : string) (v : V) (d : dict V) :
  dict_get k (dict_set k v d) = Some v.
Proof.
induction d as [|[k' v'] d IH]; simpl.
- now rewrite String.eqb_refl.
- destruct (String.eqb k k') eqn:E; simpl; rewrite E; [reflexivity|exact IH].
Qed.

Lemma dict_get_Forall (V : Type) (P : V -> Prop) (k : string) (v : V) (d : dict V) :
  dict_get k d = Some v -> Forall (fun kv => P (snd kv)) d -> P v.
Proof.
induction d as [|[k' v'] d IH]; simpl; intros H Hall; [discriminate|].
inversion Hall as [|? ? Hhead Htail]; subst.
destruct (String.eqb k k'); [inversion H; now subst|now apply IH].
Qed.

Lemma dict_set_Forall (V : Type) (P : V -> Prop) (k : string) (v : V) (d : dict V) :
  P v -> Forall (fun kv => P (snd kv)) d ->
  Forall (fun kv => P (snd kv)) (dict_set k v d).
Proof.
intros Hv. induction d as [|[k' v'] d IH]; simpl; intros Hall.
- now repeat constructor.
- inversion Hall as [|? ? Hhead Htail]; subst.
  destruct (String.eqb k k'); constructor; auto.
Qed.

Lemma foldM_invariant (A S : Type) (P : S -> Prop) (f : S -> A -> result S)
  (l : list A) :
  (forall s x s', In x l -> P s -> f s x = OK s' -> P s') ->
  forall s s', P s -> foldM f l s = OK s' -> P s'.
Proof.
induction l as [|x l IH]; simpl; intros Hstep s s' Hs H.
- inversion H. now subst.
- destruct (f s x) as [s1|e] eqn:E; simpl in H; [|discriminate].
  apply (IH (fun s0 y s0' Hy => Hstep s0 y s0' (or_intror Hy)) s1 s');
    [|exact H].
  apply (Hstep s x s1); [now left|exact Hs|exact E].
Qed.

(** ** Archive Decoder, further *)

Lemma upper_names_clean (impl : update_impl) (df df' : DataFrame) :
  CleanDataframe impl df = OK df' -> upper_names df'.
Proof.
intros H. unfold upper_names.
rewrite (CleanDataframe_names impl df df' H).
apply Forall_map. apply Forall_forall. intros n _. apply upper_idempotent.
Qed.


Lemma MapDataframeName_record_type (filename r : string) :
  MapDataframeName filename = OK r -> In r record_types.
Proof.
unfold MapDataframeName, list_index.
destruct (nth_error (split "_" filename) 1) as [seg|]; [|discriminate].
unfold bind, getitem. simpl.
repeat match goal with
| |- context [String.eqb seg ?c] =>
    destruct (String.eqb seg c); [intros H; inversion H; simpl; tauto|]
end.
discriminate.
Qed.

Lemma upper_names_concat (a b : DataFrame) :
  upper_names a -> upper_names b -> upper_names (concat a b).
Proof.
intros Ha Hb. unfold concat.
destruct (is_empty_shape a); [exact Hb|].
destruct (is_empty_shape b); [exact Ha|].
unfold upper_names, column_names in *. simpl. rewrite map_map. simpl. rewrite map_id.
unfold union_names. apply Forall_app. split; [exact Ha|].
apply Forall_forall. intros n Hn. apply filter_In in Hn as [Hn _].
rewrite Forall_forall in Hb. now apply Hb.
Qed.

Lemma concat_key_inv (m dfs dfs1 : dict DataFrame) (k : string) :
  concat_key m dfs k = OK dfs1 ->
  exists cur acc, dict_get k m = Some cur /\ dict_get k dfs = Some acc /\
                  dfs1 = dict_set k (concat cur acc) dfs.
Proof.
unfold concat_key, getitem.
destruct (dict_get k m) as [cur|]; simpl; [|discriminate].
destruct (dict_get k dfs) as [acc|]; simpl; [|discriminate].
intros H. inversion H. now exists cur, acc.
Qed.

(** After the loop over the keys, each visited key holds the decoded table
    stacked on what it held, and the other keys hold what they held. *)
Lemma concat_loop_get (m : dict DataFrame) (ks : list string) :
  NoDup ks ->
  forall dfs dfs', foldM (concat_key m) ks dfs = OK dfs' ->
  forall k acc, dict_get k dfs = Some acc ->
    (In k ks -> exists t, dict_get k m = Some t /\
                          dict_get k dfs' = Some (concat t acc)) /\
    (~ In k ks -> dict_get k dfs' = Some acc).
Proof.
induction ks as [|a ks IH]; intros Hnd dfs dfs' H k acc Hk.
- simpl in H. inversion H; subst. split; [intros []|now intros _].
- simpl in H. destruct (concat_key m dfs a) as [dfs1|e] eqn:E; simpl in H;
    [|discriminate].
  destruct (concat_key_inv m dfs dfs1 a E) as [cur [acc_a [Hm [Ha ->]]]].
  inversion Hnd as [|? ? Hnotin Hnd']; subst.
  destruct (string_dec k a) as [->|Hne].
  + rewrite Hk in Ha. inversion Ha; subst acc_a.
    destruct (IH Hnd' _ dfs' H a (concat cur acc) (dict_get_set_same _ a _ dfs))
      as [_ Hout].
    split; [|intros Hn; exfalso; apply Hn; now left].
    intros _. exists cur. split; [exact Hm|now apply Hout].
  + assert (Hk1 : dict_get k (dict_set a (concat cur acc_a) dfs) = Some acc)
      by (rewrite dict_get_set_other; assumption).
    destruct (IH Hnd' _ dfs' H k acc Hk1) as [Hin Hout]. split.
    * intros [Heq|Hin']; [congruence|now apply Hin].
    * intros Hn. apply Hout. intros Hin'. apply Hn. now right.
Qed.

Lemma dict_get_some_in_keys (V : Type) (k : string) (v : V) (d : dict V) :
  dict_get k d = Some v -> In k (keys d).
Proof.
induction d as [|[k' v'] d IH]; simpl; [discriminate|].
destruct (String.eqb k k') eqn:E; intros H.
- apply String.eqb_eq in E. now left.
- right. now apply IH.
Qed.

Lemma concat_territory_get (m dfs dfs' : dict DataFrame) :
  NoDup (keys dfs) -> concat_territory m dfs = OK dfs' ->
  keys dfs' = keys dfs /\
  forall k acc, dict_get k dfs = Some acc ->
    exists t, dict_get k m = Some t /\ dict_get k dfs' = Some (concat t acc).
Proof.
intros Hnd H. unfold concat_territory in H. split.
- pose proof (concat_keys_loop m (keys dfs) dfs (incl_refl _)) as L.
  destruct (first_missing m (keys dfs)); [congruence|].
  destruct L as [dfs'' [L1 L2]]. congruence.
- intros k acc Hk.
  apply (concat_loop_get m (keys dfs) Hnd dfs dfs' H k acc Hk).
  now apply (dict_get_some_in_keys _ k acc).
Qed.

Lemma record_types_NoDup : NoDup record_types.
Proof.
repeat constructor; simpl; intuition discriminate.
Qed.

Section DecoderProperties.

Variable impl : update_impl.
Variable ZipFile : bytes -> result zip.
Variable read_stata : bytes -> result DataFrame.

Local Abbreviation decode := (ReadZippedStataData impl ZipFile read_stata).
Local Abbreviation aggregate := (ReadDataFolder impl ZipFile read_stata).
Local Abbreviation clean_stata := (ReadStataData impl read_stata).

Lemma ReadStataData_upper_names (data : bytes) (df : DataFrame) :
  clean_stata data = OK df -> upper_names df.
Proof.
unfold ReadStataData. destruct (read_stata data) as [raw|e]; [|discriminate].
simpl. apply upper_names_clean.
Qed.

(** The state of the loops of the decoder satisfies [P] from the empty
    dictionary on, when storing a cleaned table under a record type keeps
    [P]. *)
Lemma decode_invariant (P : dict DataFrame -> Prop) (path : node) (m : dict DataFrame) :
  P [] ->
  (forall d filename name data df,
     P d -> MapDataframeName filename = OK name -> clean_stata data = OK df ->
     P (dict_set name df d)) ->
  decode path = OK m -> P m.
Proof.
intros Hnil Hstep. destruct path as [name content|name children]; [|discriminate].
unfold ReadZippedStataData. destruct (ZipFile content) as [data_archive|e];
  [|discriminate].
simpl. apply foldM_invariant; [|exact Hnil].
intros d filename d' _ Hd. destruct (zip_open data_archive filename) as [nested|e];
  [|discriminate].
simpl. destruct (ZipFile nested) as [dta_archive|e]; [|discriminate].
simpl. unfold read_dta_archive. apply foldM_invariant; [|exact Hd].
intros d0 file d1 _ Hd0.
destruct (MapDataframeName file) as [rt|e] eqn:Ert; [|discriminate].
simpl. destruct (zip_open dta_archive file) as [data|e]; [|discriminate].
simpl. destruct (clean_stata data) as [df|e] eqn:Edf; [|discriminate].
simpl. intros H. inversion H; subst. now apply (Hstep d0 file rt data df).
Qed.

Lemma decode_decoded (path : node) (m : dict DataFrame) :
  decode path = OK m -> decoded m.
Proof.
apply decode_invariant.
- repeat split; [intros x []|constructor|constructor].
- intros d filename name data df [H1 [H2 H3]] Hname Hdf. repeat split.
  + intros x Hx. destruct (dict_set_keys_incl _ name df d x Hx) as [<-|Hin].
    * now apply (MapDataframeName_record_type filename).
    * now apply H1.
  + now apply dict_set_NoDup.
  + apply dict_set_Forall; [|exact H3]. now apply (ReadStataData_upper_names data).
Qed.

(** X11. The keys of a decoded territory are record types, each occurring once,
    and every column name of every decoded table is in upper case. *)
Theorem ReadZippedStataData_decoded (path : node) (m : dict DataFrame) :
  decode path = OK m ->
  incl (keys m) record_types /\ NoDup (keys m) /\
  forall k t, dict_get k m = Some t -> upper_names t.
Proof.
intros H. destruct (decode_decoded path m H) as [H1 [H2 H3]].
split; [exact H1|]. split; [exact H2|].
intros k t Hk. exact (dict_get_Forall _ upper_names k t m Hk H3).
Qed.


(** X13. A nested archive that cannot be opened makes the decode of the whole
    territory raise. *)
Theorem ReadZippedStataData_bad_nested
  (name : string) (content nested : bytes) (data_archive : zip)
  (filename : string) (e : exn) :
  ZipFile content = OK data_archive ->
  In filename (namelist data_archive) ->
  endswith (lower filename) "dta.zip" = true ->
  zip_open data_archive filename = OK nested ->
  ZipFile nested = Err e ->
  exists e', decode (File name content) = Err e'.
Proof.
intros Hzip Hin Hsuffix Hopen Hnested.
unfold ReadZippedStataData. rewrite Hzip. simpl.
apply foldM_fails with (x := filename).
- apply filter_In. now split.
- intros d. exists e. rewrite Hopen. simpl. now rewrite Hnested.
Qed.

(** X14. A file of a nested archive that the Stata decoder rejects, or whose
    table cannot be cleaned, makes the decode of the whole territory raise. *)
Theorem ReadZippedStataData_bad_file
  (name : string) (content nested data : bytes) (data_archive dta_archive : zip)
  (filename file : string) (e : exn) :
  ZipFile content = OK data_archive ->
  In filename (namelist data_archive) ->
  endswith (lower filename) "dta.zip" = true ->
  zip_open data_archive filename = OK nested ->
  ZipFile nested = OK dta_archive ->
  In file (namelist dta_archive) ->
  zip_open dta_archive file = OK data ->
  clean_stata data = Err e ->
  exists e', decode (File name content) = Err e'.
Proof.
intros Hzip Hin Hsuffix Hopen Hnested Hfile Hdata Hclean.
unfold ReadZippedStataData. rewrite Hzip. simpl.
apply foldM_fails with (x := filename).
- apply filter_In. now split.
- intros d. rewrite Hopen. simpl. rewrite Hnested. simpl.
  unfold read_dta_archive. apply foldM_fails with (x := file); [exact Hfile|].
  intros d'. destruct (MapDataframeName file) as [rt|e0]; simpl.
  + exists e. rewrite Hdata. simpl. now rewrite Hclean.
  + now exists e0.
Qed.

End DecoderProperties.

(** ** Folder Aggregator, further *)

Lemma concat_territory_upper_names (m dfs dfs' : dict DataFrame) :
  Forall (fun kv => upper_names (snd kv)) m ->
  Forall (fun kv => upper_names (snd kv)) dfs ->
  concat_territory m dfs = OK dfs' ->
  Forall (fun kv => upper_names (snd kv)) dfs'.
Proof.
intros Hm Hdfs. unfold concat_territory.
apply foldM_invariant; [|exact Hdfs].
intros d k d' _ Hd H.
destruct (concat_key_inv m d d' k H) as [cur [acc [Hcur [Hacc ->]]]].
apply dict_set_Forall; [|exact Hd]. apply upper_names_concat.
- exact (dict_get_Forall _ upper_names k cur m Hcur Hm).
- exact (dict_get_Forall _ upper_names k acc d Hacc Hd).
Qed.

Lemma initial_dfs_get (k : string) :
  In k record_types -> dict_get k initial_dfs = Some empty_DataFrame.
Proof.
simpl. intros [<-|[<-|[<-|[<-|[<-|[]]]]]]; reflexivity.
Qed.

Lemma table_of_some (k : string) (m : dict DataFrame) (t : DataFrame) :
  dict_get k m = Some t -> table_of k m = t.
Proof. intros H. unfold table_of. now rewrite H. Qed.

Section AggregatorProperties.

Variable impl : update_impl.
Variable ZipFile : bytes -> result zip.
Variable read_stata : bytes -> result DataFrame.

Local Abbreviation decode := (ReadZippedStataData impl ZipFile read_stata).
Local Abbreviation aggregate := (ReadDataFolder impl ZipFile read_stata).

Lemma aggregate_invariant (folder_path : node) (dfs : dict DataFrame) :
  aggregate folder_path = OK dfs ->
  keys dfs = record_types /\ Forall (fun kv => upper_names (snd kv)) dfs.
Proof.
unfold ReadDataFolder.
apply (foldM_invariant _ _
         (fun d => keys d = record_types /\
                   Forall (fun kv => upper_names (snd kv)) d)).
- intros d path d' _ [Hk Hu] H.
  destruct (decode path) as [m|e] eqn:Em; [|discriminate]. simpl in H.
  destruct (decode_decoded impl ZipFile read_stata path m Em) as [_ [_ Hm]].
  assert (Hnd : NoDup (keys d)) by (rewrite Hk; apply record_types_NoDup).
  destruct (concat_territory_get m d d' Hnd H) as [Hk' _]. split; [congruence|].
  exact (concat_territory_upper_names m d d' Hm Hu H).
- split; [reflexivity|]. repeat constructor.
Qed.

(** X16. Whenever the aggregation returns, its keys are exactly the five record
    types, in their order, and every column name of every unified table is
    in upper case. *)
Theorem ReadDataFolder_keys (folder_path : node) (dfs : dict DataFrame) :
  aggregate folder_path = OK dfs ->
  keys dfs = record_types /\
  forall k t, dict_get k dfs = Some t -> upper_names t.
Proof.
intros H. destruct (aggregate_invariant folder_path dfs H) as [H1 H2].
split; [exact H1|]. intros k t Hk.
exact (dict_get_Forall _ upper_names k t dfs Hk H2).
Qed.

(** X17. A matched path that cannot be decoded (a directory whose name matches
    the pattern, a file that is no archive, a territory whose decode raises)
    makes the whole aggregation raise: no territory is skipped. *)
Theorem ReadDataFolder_fail_fast (folder_path path : node) (e : exn) :
  In path (glob_territories folder_path) ->
  decode path = Err e ->
  exists e', aggregate folder_path = Err e'.
Proof.
intros Hin Herr. unfold ReadDataFolder.
apply foldM_fails with (x := path); [exact Hin|].
intros d. exists e. now rewrite Herr.
Qed.

Lemma aggregate_rows (paths : list node) (ms : list (dict DataFrame)) :
  Forall2 (fun p m => decode p = OK m /\ complete m) paths ms ->
  forall dfs, keys dfs = record_types ->
  exists dfs',
    foldM (fun dfs path =>
             current_dfs <- decode path ;; concat_territory current_dfs dfs)
          paths dfs = OK dfs' /\
    forall k acc, dict_get k dfs = Some acc ->
      exists u, dict_get k dfs' = Some u /\
                nrows u = (territory_rows k ms + nrows acc)%nat.
Proof.
induction 1 as [|p m paths ms [Hm Hc] _ IH]; intros dfs Hk.
- exists dfs. split; [reflexivity|]. intros k acc Hacc. now exists acc.
- simpl. rewrite Hm. simpl.
  destruct (concat_territory_complete m dfs Hk Hc) as [dfs1 [H1 Hk1]].
  rewrite H1. simpl.
  assert (Hnd : NoDup (keys dfs)) by (rewrite Hk; apply record_types_NoDup).
  destruct (concat_territory_get m dfs dfs1 Hnd H1) as [_ Hget].
  destruct (IH dfs1 Hk1) as [dfs' [H2 Hrows]].
  exists dfs'. split; [exact H2|]. intros k acc Hacc.
  destruct (Hget k acc Hacc) as [t [Ht Hset]].
  destruct (Hrows k (concat t acc) Hset) as [u [Hu Hn]].
  exists u. split; [exact Hu|].
  rewrite Hn, concat_nrows. unfold territory_rows. simpl.
  rewrite (table_of_some k m t Ht). lia.
Qed.

(** X18. With every matched archive decoding to a complete territory, the
    aggregation returns, and each unified table has as many rows as the
    territories hold together for its record type. *)
Theorem ReadDataFolder_row_count (folder_path : node) (ms : list (dict DataFrame)) :
  Forall2 (fun p m => decode p = OK m /\ complete m)
          (glob_territories folder_path) ms ->
  exists dfs,
    aggregate folder_path = OK dfs /\
    forall k, In k record_types ->
      exists u, dict_get k dfs = Some u /\ nrows u = territory_rows k ms.
Proof.
intros H. unfold ReadDataFolder.
destruct (aggregate_rows _ ms H initial_dfs eq_refl) as [dfs [H1 H2]].
exists dfs. split; [exact H1|]. intros k Hk.
destruct (H2 k empty_DataFrame (initial_dfs_get k Hk)) as [u [Hu Hn]].
exists u. split; [exact Hu|]. rewrite Hn. simpl. lia.
Qed.

(** X19. A folder with a single matched archive, decoding to a complete
    territory: the unified tables are the decoded tables themselves. *)
Theorem ReadDataFolder_single (folder_path path : node) (m : dict DataFrame) :
  glob_territories folder_path = [path] ->
  decode path = OK m ->
  complete m ->
  exists dfs,
    aggregate folder_path = OK dfs /\
    forall k, In k record_types -> dict_get k dfs = dict_get k m.
Proof.
intros Hglob Hm Hc. unfold ReadDataFolder. rewrite Hglob. simpl.
rewrite Hm. simpl.
destruct (concat_territory_complete m initial_dfs eq_refl Hc) as [dfs [H1 Hk]].
rewrite H1. simpl. exists dfs. split; [reflexivity|]. intros k Hin.
destruct (concat_territory_get m initial_dfs dfs record_types_NoDup H1) as [_ Hget].
destruct (Hget k empty_DataFrame (initial_dfs_get k Hin)) as [t [Ht Hset]].
now rewrite Hset, Ht, concat_empty_right.
Qed.

End AggregatorProperties.

Lemma ReadZippedStataData_decoded_witness :
  incl (keys (example_decoded example_path_05)) record_types /\
  NoDup (keys (example_decoded example_path_05)) /\
  forall k t, dict_get k (example_decoded example_path_05) = Some t -> upper_names t.
Proof.
apply (ReadZippedStataData_decoded ReplaceColumn example_ZipFile example_read_stata
         example_path_05).
vm_compute. reflexivity.
Defined.


Lemma ReadZippedStataData_bad_nested_witness :
  exists e', ReadZippedStataData SetInPlace example_ZipFile_corrupt example_read_stata
               (File "05_Antioquia.zip" [Byte.x0b]) = Err e'.
Proof.
apply (ReadZippedStataData_bad_nested SetInPlace example_ZipFile_corrupt
         example_read_stata "05_Antioquia.zip" [Byte.x0b] [Byte.xff]
         [("CNPV2018_1VIV_dta.zip", [Byte.xff])] "CNPV2018_1VIV_dta.zip" BadZipFile).
- reflexivity.
- simpl. now left.
- reflexivity.
- reflexivity.
- reflexivity.
Defined.

Lemma ReadZippedStataData_bad_file_witness :
  exists e', ReadZippedStataData SetInPlace example_ZipFile example_read_stata_fractional
               example_path_05 = Err e'.
Proof.
apply (ReadZippedStataData_bad_file SetInPlace example_ZipFile
         example_read_stata_fractional "05_Antioquia.zip" [Byte.x01; Byte.x05]
         [Byte.x02; Byte.x01; Byte.x05] [Byte.x03; Byte.x01; Byte.x05]
         (map (fun p => (("CNPV2018_" ++ snd p ++ "_DTA.zip")%string,
                         [Byte.x02; fst p; Byte.x05])) example_codes)
         [("CNPV2018_1VIV_A2.DTA", [Byte.x03; Byte.x01; Byte.x05])]
         "CNPV2018_1VIV_DTA.zip" "CNPV2018_1VIV_A2.DTA" TypeError).
- reflexivity.
- simpl. now left.
- reflexivity.
- reflexivity.
- reflexivity.
- simpl. now left.
- reflexivity.
- reflexivity.
Defined.

Lemma ReadDataFolder_keys_witness :
  keys example_unified = record_types /\
  forall k t, dict_get k example_unified = Some t -> upper_names t.
Proof.
apply (ReadDataFolder_keys ReplaceColumn example_ZipFile example_read_stata
         example_folder).
vm_compute. reflexivity.
Defined.

Lemma ReadDataFolder_fail_fast_witness :
  exists e', ReadDataFolder ReplaceColumn example_ZipFile example_read_stata
               example_folder_directory = Err e'.
Proof.
apply (ReadDataFolder_fail_fast ReplaceColumn example_ZipFile example_read_stata
         example_folder_directory
         (Dir "05_Antioquia" [ File "CNPV2018_1VIV_A2_05.DTA" [] ])
         IsADirectoryError).
- simpl. now left.
- reflexivity.
Defined.

Lemma example_decoded_complete (path : node) :
  In path [example_path_05; example_path_08] ->
  ReadZippedStataData ReplaceColumn example_ZipFile example_read_stata path
  = OK (example_decoded path) /\ complete (example_decoded path).
Proof.
intros Hp. simpl in Hp. destruct Hp as [<-|[<-|[]]].
- split; [vm_compute; reflexivity|]. intros k Hk. simpl in Hk.
  destruct Hk as [<-|[<-|[<-|[<-|[<-|[]]]]]]; eexists; vm_compute; reflexivity.
- split; [vm_compute; reflexivity|]. intros k Hk. simpl in Hk.
  destruct Hk as [<-|[<-|[<-|[<-|[<-|[]]]]]]; eexists; vm_compute; reflexivity.
Defined.

Lemma ReadDataFolder_row_count_witness :
  exists dfs,
    ReadDataFolder ReplaceColumn example_ZipFile example_read_stata example_folder
    = OK dfs /\
    forall k, In k record_types ->
      exists u, dict_get k dfs = Some u /\
                nrows u = territory_rows k [example_decoded example_path_05;
                                            example_decoded example_path_08].
Proof.
apply (ReadDataFolder_row_count ReplaceColumn example_ZipFile example_read_stata
         example_folder).
change (glob_territories example_folder) with [example_path_05; example_path_08].
constructor; [apply example_decoded_complete; simpl; tauto|].
constructor; [apply example_decoded_complete; simpl; tauto|].
constructor.
Defined.

Lemma ReadDataFolder_single_witness :
  exists dfs,
    ReadDataFolder ReplaceColumn example_ZipFile example_read_stata
      example_folder_single = OK dfs /\
    forall k, In k record_types ->
      dict_get k dfs = dict_get k (example_decoded example_path_05).
Proof.
apply (ReadDataFolder_single ReplaceColumn example_ZipFile example_read_stata
         example_folder_single example_path_05).
- reflexivity.
- apply example_decoded_complete. simpl. tauto.
- apply example_decoded_complete. simpl. tauto.
Defined.

(** ** The traversal of the folder *)

Lemma glob_sound :
  forall folder n,
    In n (glob_territories folder) ->
    entry_of folder n /\ territory_pattern (node_name n) = true.
Proof.
fix IH 1. intros [name content|name children] n H; simpl in H; [contradiction|].
apply in_app_or in H as [H|H].
- apply filter_In in H as [Hin Hp]. split; [now constructor|exact Hp].
- induction children as [|d children IHc]; simpl in H; [contradiction|].
  apply in_app_or in H as [H|H].
  + destruct (IH d n H) as [He Hp]. split; [|exact Hp].
    apply entry_deeper with (d := d); [now left|exact He].
  + destruct (IHc H) as [He Hp]. split; [|exact Hp].
    inversion He as [? ? ? Hin|? ? d' ? Hin Hd]; subst.
    * apply entry_child. now right.
    * apply entry_deeper with (d := d'); [now right|exact Hd].
Qed.

Lemma glob_complete (folder n : node) :
  entry_of folder n -> territory_pattern (node_name n) = true ->
  In n (glob_territories folder).
Proof.
induction 1 as [name children n Hin|name children d n Hin Hd IH]; intros Hp; simpl.
- apply in_or_app. left. apply filter_In. now split.
- apply in_or_app. right. apply in_flat_map. exists d. split; [exact Hin|now apply IH].
Qed.

(** X15. The paths handed to the decoder are exactly the entries of the folder,
    at any depth, files and directories alike, whose name is two digits, an
    underscore and anything. *)
Theorem glob_territories_spec (folder n : node) :
  In n (glob_territories folder) <->
  entry_of folder n /\ territory_pattern (node_name n) = true.
Proof.
split; [apply glob_sound|]. intros [He Hp]. now apply glob_complete.
Qed.

(** ** The selection of the nested archives *)

Lemma string_map_append (f : ascii -> ascii) (a b : string) :
  string_map f (a ++ b) = (string_map f a ++ string_map f b)%string.
Proof.
induction a as [|c a IH]; simpl; [reflexivity|]. now rewrite IH.
Qed.

Lemma string_map_length (f : ascii -> ascii) (a : string) :
  String.length (string_map f a) = String.length a.
Proof.
induction a as [|c a IH]; simpl; [reflexivity|]. now rewrite IH.
Qed.

Lemma string_length_append (a b : string) :
  String.length (a ++ b) = (String.length a + String.length b)%nat.
Proof.
induction a as [|c a IH]; simpl; [reflexivity|]. now rewrite IH.
Qed.

Lemma substring_whole (b : string) : substring 0 (String.length b) b = b.
Proof.
induction b as [|c b IH]; simpl; [reflexivity|]. now rewrite IH.
Qed.

Lemma substring_suffix (a b : string) :
  substring (String.length a) (String.length b) (a ++ b) = b.
Proof.
induction a as [|c a IH]; simpl; [apply substring_whole|exact IH].
Qed.

Lemma endswith_append (a b : string) : endswith (a ++ b) b = true.
Proof.
unfold endswith. rewrite string_length_append.
replace (String.length a + String.length b - String.length b)%nat
  with (String.length a) by lia.
rewrite substring_suffix, String.eqb_refl.
apply andb_true_iff. split; [apply Nat.leb_le; lia|reflexivity].
Qed.

Lemma substring_split (n : nat) (s : string) :
  (n <= String.length s)%nat ->
  s = (substring 0 n s ++ substring n (String.length s - n) s)%string.
Proof.
revert n. induction s as [|c s IH]; intros n Hn; simpl in *.
- destruct n; [reflexivity|lia].
- destruct n; simpl.
  + now rewrite substring_whole.
  + f_equal. apply IH. lia.
Qed.

Lemma endswith_inv (s suffix : string) :
  endswith s suffix = true -> exists pre, s = (pre ++ suffix)%string.
Proof.
unfold endswith. intros H. apply andb_true_iff in H as [Hle Heq].
apply Nat.leb_le in Hle. apply String.eqb_eq in Heq.
exists (substring 0 (String.length s - String.length suffix) s).
pose proof (substring_split (String.length s - String.length suffix) s) as Hsplit.
replace (String.length s - (String.length s - String.length suffix))%nat
  with (String.length suffix) in Hsplit by lia.
rewrite Heq in Hsplit. apply Hsplit. lia.
Qed.

Lemma string_map_append_inv (f : ascii -> ascii) (a b s : string) :
  string_map f s = (a ++ b)%string ->
  exists x y, s = (x ++ y)%string /\ string_map f x = a /\ string_map f y = b.
Proof.
revert s. induction a as [|c a IH]; intros s H; simpl in H.
- exists EmptyString, s. now repeat split.
- destruct s as [|d s]; simpl in H; [discriminate|].
  inversion H as [[Hc Hs]]. destruct (IH s Hs) as [x [y [-> [Hx Hy]]]].
  exists (String d x), y. simpl. repeat split; [now rewrite Hx|exact Hy].
Qed.

(** X9. An entry of the outer archive is taken as a nested archive exactly when
    its name ends with dta.zip in whatever letter case. *)
Theorem nested_archive_selection (filename : string) :
  endswith (lower filename) "dta.zip" = true <->
  exists pre suffix, filename = (pre ++ suffix)%string /\ lower suffix = "dta.zip".
Proof.
split.
- intros H. destruct (endswith_inv _ _ H) as [pre' Hpre].
  destruct (string_map_append_inv lower_char pre' "dta.zip" filename Hpre)
    as [x [y [-> [_ Hy]]]].
  now exists x, y.
- intros [pre [suffix [-> Hs]]]. unfold lower in *.
  rewrite string_map_append, Hs. apply endswith_append.
Qed.

(** ** Dictionary Adapter *)



Section DictionaryProperties.

Variable ZipFile : bytes -> result zip.
Variable decode_utf8 : bytes -> result string.
Variable parser : Type.
Variable DictionaryParser : string -> result parser.
Variable get_column_labels : parser -> string -> result (dict string).

Local Abbreviation read_dictionary :=
  (ReadCSProDct ZipFile decode_utf8 parser DictionaryParser).


(** X21. For a table name without schema identifier (the georeference frame
    among them) the column labels are not asked for: [KeyError] on the name,
    and no query. *)
Theorem GetColumnNames_unknown (p : parser) (name : string) (log : list string) :
  ~ In name schema_record_types ->
  GetColumnNames parser get_column_labels p name log = (Err (KeyError name), log).
Proof.
intros H. unfold GetColumnNames, qbind, qlift.
assert (E : MapRecordName name = Err (KeyError name)).
{ unfold MapRecordName. now apply getitem_not_in. }
now rewrite E.
Qed.

End DictionaryProperties.


Lemma GetColumnNames_unknown_witness :
  GetColumnNames unit example_get_column_labels tt marco_georreferenciacion []
  = (Err (KeyError marco_georreferenciacion), []).
Proof.
apply (GetColumnNames_unknown unit example_get_column_labels tt
         marco_georreferenciacion []).
simpl. intuition discriminate.
Defined.

(** ** Label Substitutor, further *)

Lemma qfoldM_fails (A S : Type) (f : S -> A -> query S) (l : list A) (x : A) :
  In x l ->
  (forall s log, exists e, fst (f s x log) = Err e) ->
  forall s log, exists e, fst (qfoldM f l s log) = Err e.
Proof.
intros Hin Hx. induction l as [|a l IH]; [contradiction|].
intros s log. rewrite qfoldM_cons. destruct Hin as [->|Hin].
- destruct (Hx s log) as [e He]. rewrite He. now exists e.
- destruct (fst (f s a log)) as [s'|e]; [now apply IH|now exists e].
Qed.



Section LabelFailures.

Variable parser : Type.
Variable get_value_labels : parser -> string -> result value_labels.

Local Abbreviation apply_labels := (ApplyLabels parser get_value_labels).

(** X22. A table stored under a name that is neither the georeference frame nor
    a record type with a schema identifier makes label substitution raise. *)
Theorem ApplyLabels_unknown_table
  (dfs : dict DataFrame) (p : parser) (name : string) (df : DataFrame)
  (log : list string) :
  In (name, df) dfs ->
  name <> marco_georreferenciacion ->
  ~ In name schema_record_types ->
  exists e, fst (apply_labels dfs p log) = Err e.
Proof.
intros Hin Hgeo Hnot. unfold ApplyLabels.
apply qfoldM_fails with (x := (name, df)); [exact Hin|].
intros acc log'. exists (KeyError name). unfold label_item.
apply String.eqb_neq in Hgeo. rewrite Hgeo. simpl.
unfold GetValueLabels, qbind, qlift.
assert (E : MapRecordName name = Err (KeyError name)).
{ unfold MapRecordName. now apply getitem_not_in. }
now rewrite E.
Qed.

(** X23. When the dictionary raises for the schema identifier of one of the
    tables, label substitution raises: no table is returned. *)
Theorem ApplyLabels_dictionary_error
  (dfs : dict DataFrame) (p : parser) (name q : string) (df : DataFrame)
  (e : exn) (log : list string) :
  In (name, df) dfs ->
  MapRecordName name = OK q ->
  get_value_labels p q = Err e ->
  exists e', fst (apply_labels dfs p log) = Err e'.
Proof.
intros Hin Hq Herr. unfold ApplyLabels.
apply qfoldM_fails with (x := (name, df)); [exact Hin|].
intros acc log'. exists e. unfold label_item.
destruct (MapRecordName_ok name q Hq) as [Hgeo _].
apply String.eqb_neq in Hgeo. rewrite Hgeo. simpl.
unfold GetValueLabels, qbind, qlift. rewrite Hq. simpl. now rewrite Herr.
Qed.


End LabelFailures.

Lemma ApplyLabels_unknown_table_witness :
  exists e, fst (ApplyLabels unit example_get_value_labels
                   [(viviendas, example_viviendas); ("otros", empty_DataFrame)] tt [])
            = Err e.
Proof.
apply (ApplyLabels_unknown_table unit example_get_value_labels
         [(viviendas, example_viviendas); ("otros", empty_DataFrame)] tt
         "otros" empty_DataFrame []).
- simpl. tauto.
- discriminate.
- simpl. intuition discriminate.
Defined.

Lemma ApplyLabels_dictionary_error_witness :
  exists e', fst (ApplyLabels unit example_get_value_labels_failing example_tables tt [])
             = Err e'.
Proof.
apply (ApplyLabels_dictionary_error unit example_get_value_labels_failing
         example_tables tt hogares "REGHOG" example_georeference ValueError []).
- simpl. tauto.
- reflexivity.
- reflexivity.
Defined.




(** ** The whole pipeline *)

Section WholePipeline.

Variable impl : update_impl.
Variable ZipFile : bytes -> result zip.
Variable read_stata : bytes -> result DataFrame.
Variable decode_utf8 : bytes -> result string.
Variable parser : Type.
Variable DictionaryParser : string -> result parser.
Variable get_value_labels : parser -> string -> result value_labels.

Local Abbreviation aggregate := (ReadDataFolder impl ZipFile read_stata).
Local Abbreviation read_dictionary :=
  (ReadCSProDct ZipFile decode_utf8 parser DictionaryParser).
Local Abbreviation process :=
  (CreateProcessedDataframe impl ZipFile read_stata decode_utf8 parser
     DictionaryParser get_value_labels).

(** X26. On a folder without matching entry, with a dictionary that answers for
    the four schema identifiers: the pipeline returns the five empty tables,
    and the dictionary is still asked for the four schema identifiers, in
    order. *)
Theorem CreateProcessedDataframe_no_match
  (folder_path dict_path : node) (p : parser) :
  glob_territories folder_path = [] ->
  read_dictionary dict_path = OK p ->
  (forall q, In q schema_identifiers -> exists vl, get_value_labels p q = OK vl) ->
  process folder_path dict_path [] = (OK initial_dfs, schema_identifiers).
Proof.
intros Hglob Hdict Hvl.
destruct (Hvl "REGVIV") as [vl1 H1]; [simpl; tauto|].
destruct (Hvl "REGHOG") as [vl2 H2]; [simpl; tauto|].
destruct (Hvl "REGFALL") as [vl3 H3]; [simpl; tauto|].
destruct (Hvl "REGPER") as [vl4 H4]; [simpl; tauto|].
unfold CreateProcessedDataframe, qbind, qlift, ReadDataFolder.
rewrite Hglob. cbn [foldM]. rewrite Hdict.
unfold ApplyLabels, initial_dfs, label_item, GetValueLabels, qbind, qlift, qret. cbn.
rewrite H1. cbn. rewrite H2. cbn. rewrite H3. cbn. rewrite H4. reflexivity.
Qed.

(** X27. Whenever the pipeline returns, its keys are the five record types, the
    georeference table is the one the aggregation produced, and every query
    sent to the dictionary was the schema identifier of another record
    type. *)
Theorem CreateProcessedDataframe_georeference
  (folder_path dict_path : node) (out : dict DataFrame) :
  fst (process folder_path dict_path []) = OK out ->
  exists dfs,
    aggregate folder_path = OK dfs /\
    keys out = record_types /\
    dict_get marco_georreferenciacion out = dict_get marco_georreferenciacion dfs /\
    Forall proper_query (snd (process folder_path dict_path [])).
Proof.
unfold CreateProcessedDataframe, qbind, qlift.
destruct (aggregate folder_path) as [dfs|e] eqn:Ea; [|discriminate].
destruct (read_dictionary dict_path) as [p|e]; [|discriminate].
intros H. exists dfs. split; [reflexivity|].
destruct (aggregate_invariant impl ZipFile read_stata folder_path dfs Ea) as [Hk _].
destruct (apply_labels_loop parser get_value_labels p dfs dfs []) as [L1 [qs [L2 L3]]].
destruct (L1 out H) as [G1 G2]. split; [|split].
- rewrite <- Hk. apply G2, incl_refl.
- exact G1.
- unfold ApplyLabels. rewrite L2. exact L3.
Qed.

End WholePipeline.

Lemma CreateProcessedDataframe_no_match_witness :
  CreateProcessedDataframe ReplaceColumn example_dictionary_ZipFile example_read_stata
    example_decode_utf8 unit example_DictionaryParser example_get_value_labels
    example_folder_no_match example_dictionary []
  = (OK initial_dfs, schema_identifiers).
Proof.
apply (CreateProcessedDataframe_no_match ReplaceColumn example_dictionary_ZipFile
         example_read_stata example_decode_utf8 unit example_DictionaryParser
         example_get_value_labels example_folder_no_match example_dictionary tt).
- reflexivity.
- reflexivity.
- intros q Hq. unfold example_get_value_labels.
  destruct (String.eqb q "REGVIV"); eexists; reflexivity.
Defined.

(** ** Shapes through the pipeline *)

Lemma replace_column_name (vl : value_labels) (c : column) :
  col_name (replace_column vl c) = col_name c.
Proof.
unfold replace_column. destruct (dict_get (col_name c) vl) as [ls|]; [|reflexivity].
now destruct (existsb (has_label ls) (to_objects (col_data c))).
Qed.

Lemma replace_shape (vl : value_labels) (t : DataFrame) :
  nrows (replace vl t) = nrows t /\ column_names (replace vl t) = column_names t.
Proof.
split; [reflexivity|]. unfold column_names, replace. simpl. rewrite map_map.
apply map_ext. intros c. apply replace_column_name.
Qed.

Lemma same_shape_refl (dfs : dict DataFrame) : Forall2 same_shape dfs dfs.
Proof.
induction dfs as [|kv dfs IH]; constructor; [now repeat split|exact IH].
Qed.

Lemma dict_set_same_shape (dfs acc : dict DataFrame) (name : string)
  (df v : DataFrame) :
  Forall2 same_shape dfs acc -> NoDup (keys dfs) -> In (name, df) dfs ->
  nrows v = nrows df -> column_names v = column_names df ->
  Forall2 same_shape dfs (dict_set name v acc).
Proof.
intros HF. revert name df v.
induction HF as [|[k t] [k' t'] dfs acc [Hk [Hn Hc]] HF IH];
  intros name df v Hnd Hin Hvn Hvc; [contradiction|].
simpl in Hk. subst k'. simpl in Hnd. inversion Hnd as [|? ? Hnotin Hnd']; subst.
simpl. destruct (String.eqb name k) eqn:E.
- apply String.eqb_eq in E. subst name. constructor; [|exact HF].
  destruct Hin as [Heq|Hin].
  + inversion Heq; subst. now repeat split.
  + exfalso. apply Hnotin. apply (in_map fst) in Hin. exact Hin.
- constructor; [now repeat split|].
  destruct Hin as [Heq|Hin].
  + inversion Heq; subst. rewrite String.eqb_refl in E. discriminate.
  + now apply (IH name df v).
Qed.

Lemma same_shape_get (dfs out : dict DataFrame) (k : string) (t' : DataFrame) :
  Forall2 same_shape dfs out -> dict_get k out = Some t' ->
  exists t, dict_get k dfs = Some t /\ nrows t' = nrows t /\
            column_names t' = column_names t.
Proof.
induction 1 as [|[k1 t1] [k2 t2] dfs out [Hk [Hn Hc]] _ IH]; simpl; [discriminate|].
simpl in Hk. subst k2. destruct (String.eqb k k1); [|exact IH].
intros H. inversion H; subst. now exists t1.
Qed.

Section ShapeProperties.

Variable impl : update_impl.
Variable ZipFile : bytes -> result zip.
Variable read_stata : bytes -> result DataFrame.
Variable decode_utf8 : bytes -> result string.
Variable parser : Type.
Variable DictionaryParser : string -> result parser.
Variable get_value_labels : parser -> string -> result value_labels.

Local Abbreviation aggregate := (ReadDataFolder impl ZipFile read_stata).
Local Abbreviation apply_labels := (ApplyLabels parser get_value_labels).
Local Abbreviation process :=
  (CreateProcessedDataframe impl ZipFile read_stata decode_utf8 parser
     DictionaryParser get_value_labels).

Lemma label_item_ok (p : parser) (acc acc' : dict DataFrame) (name : string)
  (df : DataFrame) (log : list string) :
  fst (label_item parser get_value_labels p acc (name, df) log) = OK acc' ->
  acc' = acc \/ exists vl, acc' = dict_set name (replace vl df) acc.
Proof.
unfold label_item. destruct (negb (String.eqb name marco_georreferenciacion)).
- unfold GetValueLabels, qbind, qlift, qret.
  destruct (MapRecordName name) as [q|e]; [|discriminate].
  destruct (get_value_labels p q) as [vl|e]; [|discriminate].
  simpl. intros H. inversion H. right. now exists vl.
- unfold qret. simpl. intros H. inversion H. now left.
Qed.

Lemma apply_labels_shape_loop (p : parser) (dfs : dict DataFrame) :
  NoDup (keys dfs) ->
  forall items acc log out,
    incl items dfs -> Forall2 same_shape dfs acc ->
    fst (qfoldM (label_item parser get_value_labels p) items acc log) = OK out ->
    Forall2 same_shape dfs out.
Proof.
intros Hnd. induction items as [|[name df] items IH]; intros acc log out Hincl HF H.
- simpl in H. inversion H. now subst.
- rewrite qfoldM_cons in H.
  destruct (fst (label_item parser get_value_labels p acc (name, df) log))
    as [acc'|e] eqn:E; [|discriminate].
  apply (IH acc' (snd (label_item parser get_value_labels p acc (name, df) log)) out);
    [intros x Hx; apply Hincl; now right| |exact H].
  destruct (label_item_ok p acc acc' name df log E) as [->|[vl ->]]; [exact HF|].
  apply (dict_set_same_shape dfs acc name df); try assumption.
  + apply Hincl. now left.
  + apply replace_shape.
  + apply replace_shape.
Qed.

(** X25. Label substitution never adds or drops a table, a row or a column:
    whenever it returns, the output holds, key by key in the same order, a
    table with the number of rows and the column names of the input table. *)
Theorem ApplyLabels_shape (dfs out : dict DataFrame) (p : parser) (log : list string) :
  NoDup (keys dfs) ->
  fst (apply_labels dfs p log) = OK out ->
  Forall2 same_shape dfs out.
Proof.
intros Hnd H.
apply (apply_labels_shape_loop p dfs Hnd dfs dfs log out);
  [apply incl_refl|apply same_shape_refl|exact H].
Qed.

(** X28. Whenever the pipeline returns, each output table has the number of rows
    and the column names of the unified table of its record type, and every
    column name is in upper case. *)
Theorem CreateProcessedDataframe_shape
  (folder_path dict_path : node) (out : dict DataFrame) :
  fst (process folder_path dict_path []) = OK out ->
  exists dfs,
    aggregate folder_path = OK dfs /\
    Forall2 same_shape dfs out /\
    forall k t, dict_get k out = Some t -> upper_names t.
Proof.
unfold CreateProcessedDataframe, qbind, qlift.
destruct (aggregate folder_path) as [dfs|e] eqn:Ea; [|discriminate].
destruct (ReadCSProDct ZipFile decode_utf8 parser DictionaryParser dict_path)
  as [p|e]; [|discriminate].
intros H. exists dfs. split; [reflexivity|].
destruct (aggregate_invariant impl ZipFile read_stata folder_path dfs Ea) as [Hk Hu].
assert (Hnd : NoDup (keys dfs)) by (rewrite Hk; apply record_types_NoDup).
assert (HF : Forall2 same_shape dfs out).
{ apply (apply_labels_shape_loop p dfs Hnd dfs dfs [] out);
    [apply incl_refl|apply same_shape_refl|exact H]. }
split; [exact HF|]. intros k t' Hk'.
destruct (same_shape_get dfs out k t' HF Hk') as [t [Ht [_ Hc]]].
unfold upper_names. rewrite Hc.
exact (dict_get_Forall _ upper_names k t dfs Ht Hu).
Qed.

End ShapeProperties.

Lemma example_tables_NoDup : NoDup (keys example_tables).
Proof.
repeat constructor; simpl; intuition discriminate.
Defined.

Lemma ApplyLabels_shape_witness : Forall2 same_shape example_tables example_labelled.
Proof.
apply (ApplyLabels_shape unit example_get_value_labels example_tables
         example_labelled tt [] example_tables_NoDup).
reflexivity.
Defined.

Lemma CreateProcessedDataframe_shape_witness :
  exists dfs,
    ReadDataFolder ReplaceColumn example_ZipFile_all example_read_stata example_folder
    = OK dfs /\
    Forall2 same_shape dfs example_processed /\
    forall k t, dict_get k example_processed = Some t -> upper_names t.
Proof.
apply (CreateProcessedDataframe_shape ReplaceColumn example_ZipFile_all
         example_read_stata example_decode_utf8 unit example_DictionaryParser
         example_get_value_labels example_folder example_dictionary
         example_processed).
vm_compute. reflexivity.
Defined.

(** ** Record Type Mapper, file names *)

(** X3. Only the second segment of a file name counts: two names with the same
    second segment are mapped alike, whatever comes before and after. *)
Theorem MapDataframeName_second_segment (pre pre' seg post post' : string) :
  contains_char "_" pre = false ->
  contains_char "_" pre' = false ->
  contains_char "_" seg = false ->
  MapDataframeName (pre ++ String "_" (seg ++ String "_" post))
  = MapDataframeName (pre' ++ String "_" (seg ++ String "_" post')) /\
  MapDataframeName (pre ++ String "_" (seg ++ String "_" post))
  = MapDataframeName (pre' ++ String "_" seg).
Proof.
intros Hpre Hpre' Hseg. unfold MapDataframeName, list_index.
rewrite (proj2 (second_segment pre seg post Hpre Hseg)).
rewrite (proj2 (second_segment pre' seg post' Hpre' Hseg)).
rewrite (proj1 (second_segment pre' seg post' Hpre' Hseg)).
now split.
Qed.

Lemma MapDataframeName_second_segment_witness :
  MapDataframeName "CNPV2018_1VIV_A2_05.DTA" = MapDataframeName "CNPV2018_1VIV_A2_08.DTA" /\
  MapDataframeName "CNPV2018_1VIV_A2_05.DTA" = MapDataframeName "CNPV2018_1VIV".
Proof.
apply (MapDataframeName_second_segment "CNPV2018" "CNPV2018" "1VIV" "A2_05.DTA"
         "A2_08.DTA"); reflexivity.
Defined.

Lemma ReadZippedStataData_no_inner_witness :
  ReadZippedStataData SetInPlace example_ZipFile example_read_stata
    (File "05_Antioquia.zip" [Byte.x00]) = OK [].
Proof.
apply (ReadZippedStataData_no_inner SetInPlace example_ZipFile example_read_stata
         "05_Antioquia.zip" [Byte.x00] []); reflexivity.
Defined.

Lemma CreateProcessedDataframe_georeference_witness :
  exists dfs,
    ReadDataFolder ReplaceColumn example_ZipFile_all example_read_stata example_folder
    = OK dfs /\
    keys example_processed = record_types /\
    dict_get marco_georreferenciacion example_processed
    = dict_get marco_georreferenciacion dfs /\
    Forall proper_query
      (snd (CreateProcessedDataframe ReplaceColumn example_ZipFile_all
              example_read_stata example_decode_utf8 unit example_DictionaryParser
              example_get_value_labels example_folder example_dictionary [])).
Proof.
apply (CreateProcessedDataframe_georeference ReplaceColumn example_ZipFile_all
         example_read_stata example_decode_utf8 unit example_DictionaryParser
         example_get_value_labels example_folder example_dictionary
         example_processed).
vm_compute. reflexivity.
Defined.
